(** * Verification model of the call-session core of Ideaify

    Shallow embedding of [src/docker_project/voip_server.py]: the phone
    number formatter of [VoIPLibrary], the [CallSession] object (recording,
    playback and DTMF menu navigation) and the pjsua2 callbacks
    [onIncomingCall], [Call.onCallState] and [Call.onCallDtmfDigit] that
    mutate the [active_calls] registry and invoke the [event_handlers].

    Strings are ASCII strings; the Python [active_calls] dict keyed by the
    integer pjsua call id is a [gmap Z]; effectful methods run in a small
    state/output/exception monad whose output is the list of operations
    the code performs on the outside world (pjsua calls, handler calls,
    writes to [active_calls]). *)

From Stdlib Require Import String Ascii ZArith Bool.
From stdpp Require Import base gmap strings list.

Local Open Scope string_scope.
Local Open Scope list_scope.

(* ------------------------------------------------------------------ *)
(** ** Phone number formatting: [VoIPLibrary._format_phone_number] *)
(* ------------------------------------------------------------------ *)

Module Phone.

(** Python's [\d] on an ASCII character. *)
Definition is_digit (c : ascii) : bool :=
  let n := nat_of_ascii c in (Nat.leb 48 n && Nat.leb n 57)%bool.

(** [re.sub(r'(?!^\+)\D', '', number)]: a character is removed when it is
    not a digit, unless it is a [+] at position 0 (the lookahead
    [(?!^\+)] blocks the match only there). [first] is true exactly at
    position 0. *)
Fixpoint clean_from (first : bool) (s : string) : string :=
  match s with
  | EmptyString => EmptyString
  | String c rest =>
      if (is_digit c || (first && Ascii.eqb c "+"%char))%bool
      then String c (clean_from false rest)
      else clean_from false rest
  end.

Definition clean_number (number : string) : string := clean_from true number.

(** Python's [s.split(sep)] for a one-character separator: the list of
    pieces between separators, never empty. *)
Fixpoint py_split (sep : ascii) (s : string) : list string :=
  match s with
  | EmptyString => [EmptyString]
  | String c rest =>
      let ps := py_split sep rest in
      if Ascii.eqb c sep then EmptyString :: ps
      else match ps with
           | p :: ps' => String c p :: ps'
           | [] => [String c EmptyString]
           end
  end.

(** [os.getenv("SIP_REGISTRAR", "sip:provider.example.com")]; [None] is
    an unset variable. *)
Definition default_registrar : string := "sip:provider.example.com".

Definition registrar_of (env_sip_registrar : option string) : string :=
  match env_sip_registrar with
  | Some r => r
  | None => default_registrar
  end.

(** [registrar.split("@")[-1].split(":")[0]] *)
Definition domain_of (registrar : string) : string :=
  hd EmptyString (py_split ":" (List.last (py_split "@" registrar) EmptyString)).

(** [_format_phone_number]: [f"sip:{cleaned}@{domain}"]. *)
Definition _format_phone_number (env_sip_registrar : option string)
    (number : string) : string :=
  let cleaned := clean_number number in
  let domain := domain_of (registrar_of env_sip_registrar) in
  String.concat "" ["sip:"; cleaned; "@"; domain].

(** The address [place_call] and [send_message] hand to pjsua:
    [if not number.startswith("sip:"): number = self._format_phone_number(number)]. *)
Definition target_address (env_sip_registrar : option string)
    (number : string) : string :=
  if String.prefix "sip:" number then number
  else _format_phone_number env_sip_registrar number.

End Phone.

(* ------------------------------------------------------------------ *)
(** ** Operations performed on the outside world *)
(* ------------------------------------------------------------------ *)

(** A call of one of the [event_handlers], with the argument the code
    passes ([session] is identified by its call id). *)
Inductive handler_call :=
| HIncomingCall (id : Z)          (* event_handlers['incoming_call'](session) *)
| HCallConnected (id : Z)         (* event_handlers['call_connected'](session) *)
| HCallEnded (id : Z)             (* event_handlers['call_ended'](session) *)
| HDtmfReceived (digit : string). (* event_handlers['dtmf_received'](prm.digit) *)

Inductive effect :=
| EStore (id : Z)                       (* active_calls[id] = session *)
| EDelete (id : Z)                      (* del active_calls[id] *)
| EHandler (h : handler_call)
| EAction (act : string) (id : Z)       (* current['action'](self) *)
| EMakeCall (addr : string)             (* call.makeCall(number, call_prm) *)
| ESendInstantMessage (addr text : string)
| ECreateRecorder (file_ms : Z)         (* recorder.createRecorder(recording_file) *)
| EPlayerStopTransmit (sink : option Z) (* player.stopTransmit(audio_med) *)
| ECreatePlayer (file : string)         (* player.createPlayer(file_path) *)
| EPlayerStartTransmit (sink : option Z)(* player.startTransmit(audio_med) *)
| EStartTransmitToRecorder (med : Z)    (* audio_med.startTransmit(recorder) *)
| EStopTransmitToRecorder (med : Z)     (* audio_med.stopTransmit(recorder) *)
| ELogError (msg : string).             (* logging.error(...) *)

(* ------------------------------------------------------------------ *)
(** ** DTMF menus and [CallSession] *)
(* ------------------------------------------------------------------ *)

(** A menu node is a Python dict: digit keys mapping to child dicts, and
    an optional ['action'] key holding a callable, named here by a label. *)
#[local] Set Warnings "-register-all".

Inductive menu :=
| Node (children : list (string * menu)) (action : option string).

Definition empty_menu : menu := Node [] None.

Definition menu_action (m : menu) : option string :=
  match m with Node _ a => a end.

Fixpoint assoc_digit (d : string) (l : list (string * menu)) : option menu :=
  match l with
  | [] => None
  | (k, v) :: l' => if String.eqb k d then Some v else assoc_digit d l'
  end.

(** [current.get(d, {})] *)
Definition menu_get (current : menu) (d : string) : menu :=
  match current with
  | Node ch _ =>
      match assoc_digit d ch with Some c => c | None => empty_menu end
  end.

(** Python truthiness of a dict: non-empty. *)
Definition menu_truthy (m : menu) : bool :=
  match m with
  | Node [] None => false
  | _ => true
  end.

(** The [config] dict of a session: ['record'] and ['dtmf_menu']. *)
Record session_config := {
  cfg_record : option bool;
  cfg_dtmf_menu : option menu
}.

Definition empty_config : session_config :=
  {| cfg_record := None; cfg_dtmf_menu := None |}.

(** [CallSession]: [call] is identified by its pjsua call id; the
    recorder and player objects by whether they exist (the player by the
    file it was created for); [audio_med] by a media port number;
    [recording_file] ["recording_<ms>.wav"] by its millisecond stamp. *)
Record CallSession := {
  call : Z;
  config : session_config;
  recorder : bool;
  player : option string;
  audio_med : option Z;
  dtmf_buffer : list string;
  recording_file : option Z
}.

Definition set_dtmf_buffer (s : CallSession) (b : list string) : CallSession :=
  {| call := call s; config := config s; recorder := recorder s;
     player := player s; audio_med := audio_med s; dtmf_buffer := b;
     recording_file := recording_file s |}.

Definition set_player (s : CallSession) (p : option string) : CallSession :=
  {| call := call s; config := config s; recorder := recorder s;
     player := p; audio_med := audio_med s; dtmf_buffer := dtmf_buffer s;
     recording_file := recording_file s |}.

(** [CallSession.__init__] followed by [_init_recording]; [now_ms] is
    [int(time.time()*1000)]. *)
Definition new_CallSession (id : Z) (cfg : session_config) (now_ms : Z)
    : CallSession * list effect :=
  let record := match cfg_record cfg with Some b => b | None => true end in
  if record then
    ({| call := id; config := cfg; recorder := true; player := None;
        audio_med := None; dtmf_buffer := []; recording_file := Some now_ms |},
     [ECreateRecorder now_ms])
  else
    ({| call := id; config := cfg; recorder := false; player := None;
        audio_med := None; dtmf_buffer := []; recording_file := None |}, []).

(** [play_audio]: no guard; the old player stops transmitting, a new
    player is created and started on [audio_med]. *)
Definition play_audio (s : CallSession) (file_path : string)
    : CallSession * list effect :=
  let stop := match player s with
              | Some _ => [EPlayerStopTransmit (audio_med s)]
              | None => []
              end in
  (set_player s (Some file_path),
   stop ++ [ECreatePlayer file_path; EPlayerStartTransmit (audio_med s)]).

(** [start_recording]: [if self.recorder and self.audio_med]. *)
Definition start_recording (s : CallSession) : CallSession * list effect :=
  match recorder s, audio_med s with
  | true, Some m => (s, [EStartTransmitToRecorder m])
  | _, _ => (s, [])
  end.

(** [stop_recording]: returns the recording file when it stopped one. *)
Definition stop_recording (s : CallSession) : option Z * list effect :=
  match recorder s, audio_med s with
  | true, Some m => (recording_file s, [EStopTransmitToRecorder m])
  | _, _ => (None, [])
  end.

(** The [for d in self.dtmf_buffer] loop of [handle_dtmf]. It iterates
    over the list object bound before the loop ([ds]), while
    [self.dtmf_buffer = []] rebinds the attribute ([buf]); [current] is
    not reset after an action fires. *)
Fixpoint dtmf_loop (self_id : Z) (ds : list string) (current : menu)
    (buf : list string) : list string * list effect :=
  match ds with
  | [] => (buf, [])
  | d :: rest =>
      let current' := menu_get current d in
      match menu_action current' with
      | Some a =>
          let '(b, e) := dtmf_loop self_id rest current' [] in
          (b, EAction a self_id :: e)
      | None => dtmf_loop self_id rest current' buf
      end
  end.

(** [CallSession.handle_dtmf] *)
Definition handle_dtmf (s : CallSession) (digit : string)
    : CallSession * list effect :=
  let buf := dtmf_buffer s ++ [digit] in
  match cfg_dtmf_menu (config s) with
  | Some m =>
      if menu_truthy m then
        let '(b, e) := dtmf_loop (call s) buf m buf in
        (set_dtmf_buffer s b, e)
      else (set_dtmf_buffer s buf, [])
  | None => (set_dtmf_buffer s buf, [])
  end.

(** Digits delivered one after the other to [handle_dtmf]. *)
Fixpoint handle_dtmf_seq (s : CallSession) (ds : list string)
    : CallSession * list effect :=
  match ds with
  | [] => (s, [])
  | d :: rest =>
      let '(s1, e1) := handle_dtmf s d in
      let '(s2, e2) := handle_dtmf_seq s1 rest in
      (s2, e1 ++ e2)
  end.

Definition menu_9_1_X : menu :=
  Node [("9", Node [("1", Node [] (Some "X"))] None)] None.

Definition session_with_menu (m : menu) : CallSession :=
  fst (new_CallSession 0 {| cfg_record := Some false; cfg_dtmf_menu := Some m |} 0).

(** Paths through a menu, as the spec speaks of them: following children
    from a node, [None] when a digit has no child. *)
Fixpoint menu_path (m : menu) (ds : list string) : option menu :=
  match ds with
  | [] => Some m
  | d :: r =>
      match m with
      | Node ch _ =>
          match assoc_digit d ch with Some c => menu_path c r | None => None end
      end
  end.

(** Every digit of [ds] has a child, and none of the nodes reached
    carries an action. *)
Fixpoint quiet_path (m : menu) (ds : list string) : bool :=
  match ds with
  | [] => true
  | d :: r =>
      match m with
      | Node ch _ =>
          match assoc_digit d ch with
          | Some c => match menu_action c with None => quiet_path c r | Some _ => false end
          | None => false
          end
      end
  end.

(* ------------------------------------------------------------------ *)
(** ** [VoIPLibrary]: registry, event handlers and callbacks *)
(* ------------------------------------------------------------------ *)

(** What a registered handler does when called: return, or raise. *)
Inductive hbehav := Returns | Raises.

(** [self.event_handlers]: one slot per key, [None] is Python's [None]. *)
Record handlers := {
  incoming_call : option hbehav;
  incoming_message : option hbehav;
  call_connected : option hbehav;
  call_ended : option hbehav;
  dtmf_received : option hbehav
}.

Definition no_handlers : handlers :=
  {| incoming_call := None; incoming_message := None; call_connected := None;
     call_ended := None; dtmf_received := None |}.

Inductive handler_kind :=
| KIncomingCall | KIncomingMessage | KCallConnected | KCallEnded | KDtmfReceived.

(** [self.event_handlers[k] = h] *)
Definition set_handler (hs : handlers) (k : handler_kind) (h : option hbehav)
    : handlers :=
  match k with
  | KIncomingCall => {| incoming_call := h; incoming_message := incoming_message hs;
      call_connected := call_connected hs; call_ended := call_ended hs;
      dtmf_received := dtmf_received hs |}
  | KIncomingMessage => {| incoming_call := incoming_call hs; incoming_message := h;
      call_connected := call_connected hs; call_ended := call_ended hs;
      dtmf_received := dtmf_received hs |}
  | KCallConnected => {| incoming_call := incoming_call hs;
      incoming_message := incoming_message hs; call_connected := h;
      call_ended := call_ended hs; dtmf_received := dtmf_received hs |}
  | KCallEnded => {| incoming_call := incoming_call hs;
      incoming_message := incoming_message hs; call_connected := call_connected hs;
      call_ended := h; dtmf_received := dtmf_received hs |}
  | KDtmfReceived => {| incoming_call := incoming_call hs;
      incoming_message := incoming_message hs; call_connected := call_connected hs;
      call_ended := call_ended hs; dtmf_received := h |}
  end.

Record vstate := {
  active_calls : gmap Z CallSession;
  event_handlers : handlers
}.

Definition set_active_calls (st : vstate) (ac : gmap Z CallSession) : vstate :=
  {| active_calls := ac; event_handlers := event_handlers st |}.

(** Python exceptions that can leave the modelled methods. *)
Inductive exn :=
| HandlerError (h : handler_call)   (* raised by a registered handler *)
| MakeCallError.                    (* raised by call.makeCall *)

Inductive res (A : Type) := Ok (a : A) | Err (e : exn).
Arguments Ok {A} a.
Arguments Err {A} e.

(** State, output of performed operations, and exceptions. On an
    exception the state reached so far is kept, as Python keeps the
    mutations made before the raise. *)
Definition M (A : Type) : Type := vstate -> vstate * list effect * res A.

Definition ret {A} (a : A) : M A := fun st => (st, [], Ok a).

Definition bind {A B} (m : M A) (k : A -> M B) : M B :=
  fun st =>
    match m st with
    | (st1, e1, Ok a) => let '(st2, e2, r) := k a st1 in (st2, e1 ++ e2, r)
    | (st1, e1, Err x) => (st1, e1, Err x)
    end.

Global Instance M_ret : MRet M := @ret.
Global Instance M_bind : MBind M := fun A B k m => bind m k.

Definition emit (es : list effect) : M unit := fun st => (st, es, Ok tt).
Definition get_state : M vstate := fun st => (st, [], Ok st).
Definition throw {A} (x : exn) : M A := fun st => (st, [], Err x).
Definition modify_calls (f : gmap Z CallSession -> gmap Z CallSession) : M unit :=
  fun st => (set_active_calls st (f (active_calls st)), [], Ok tt).

(** [self.active_calls.get(id)] *)
Definition lookup_call (id : Z) : M (option CallSession) :=
  st ← get_state ; ret (active_calls st !! id).

(** [if self.event_handlers[k]: self.event_handlers[k](arg)] *)
Definition fire (slot : handlers -> option hbehav) (h : handler_call) : M unit :=
  st ← get_state ;
  match slot (event_handlers st) with
  | None => ret tt
  | Some Returns => emit [EHandler h]
  | Some Raises => emit [EHandler h] ;; throw (HandlerError h)
  end.

(** [onIncomingCall]: a fresh session with config [{}] is stored under
    the call id, then the [incoming_call] handler is called. *)
Definition onIncomingCall (id : Z) (now_ms : Z) : M unit :=
  let '(session, e) := new_CallSession id empty_config now_ms in
  emit e ;;
  modify_calls (insert id session) ;; emit [EStore id] ;;
  fire incoming_call (HIncomingCall id).

(** [place_call]: [makeCall] either assigns the call id [Some id] or
    raises ([None]); the failure is logged and re-raised. *)
Definition place_call (env_sip_registrar : option string) (number : string)
    (cfg : session_config) (makeCall_result : option Z) (now_ms : Z)
    : M CallSession :=
  let number := Phone.target_address env_sip_registrar number in
  emit [EMakeCall number] ;;
  match makeCall_result with
  | None => emit [ELogError "Call failed"] ;; throw MakeCallError
  | Some id =>
      let '(session, e) := new_CallSession id cfg now_ms in
      emit e ;;
      modify_calls (insert id session) ;; emit [EStore id] ;;
      ret session
  end.

(** [send_message] *)
Definition send_message (env_sip_registrar : option string) (number text : string)
    : M unit :=
  let number := Phone.target_address env_sip_registrar number in
  emit [ESendInstantMessage number text].

(** The part of a pjsua [OnCallStateParam] that [onCallState] reads:
    [prm.e.body.type == PJSIP_EVENT_RX_MSG] with [rxMsg.method]. *)
Inductive call_event_body :=
| RxMsg (method : string)
| OtherEvent.

(** [Call.onCallState]; [confirmed] is
    [self.getInfo().state == PJSIP_INV_STATE_CONFIRMED]. The nested
    [VoIPLibrary.Call] methods are modelled as written, as callbacks of a
    call whose [account] is the library; note that [place_call] and
    [onIncomingCall] construct pjsua2's own [Call] class (the name [Call]
    inside a method resolves to the module-level import), so in the file
    as it stands these overrides are reached only by such a call object. *)
Definition onCallState (id : Z) (body : call_event_body) (confirmed : bool)
    : M unit :=
  session ← lookup_call id ;
  match body with
  | RxMsg meth =>
      if (String.eqb meth "BYE" && bool_decide (is_Some session))%bool then
        fire call_ended (HCallEnded id) ;;
        modify_calls (delete id) ;; emit [EDelete id]
      else ret tt
  | OtherEvent =>
      if (confirmed && bool_decide (is_Some session))%bool then
        fire call_connected (HCallConnected id)
      else ret tt
  end.

(** [Call.onCallDtmfDigit]; the session object in [active_calls] is
    mutated in place by [handle_dtmf]. *)
Definition onCallDtmfDigit (id : Z) (digit : string) : M unit :=
  session ← lookup_call id ;
  st ← get_state ;
  match session, dtmf_received (event_handlers st) with
  | Some s, Some _ =>
      let '(s', e) := handle_dtmf s digit in
      modify_calls (insert id s') ;; emit e ;;
      fire dtmf_received (HDtmfReceived digit)
  | _, _ => ret tt
  end.

(** Events delivered to the library: pjsua callbacks, calls of the
    public methods, and assignments to [event_handlers]. *)
Inductive event :=
| EvIncomingCall (id : Z) (now_ms : Z)
| EvPlaceCall (env : option string) (number : string) (cfg : session_config)
    (makeCall_result : option Z) (now_ms : Z)
| EvSendMessage (env : option string) (number text : string)
| EvCallState (id : Z) (body : call_event_body) (confirmed : bool)
| EvDtmfDigit (id : Z) (digit : string)
| EvSetHandler (k : handler_kind) (h : option hbehav).

Definition set_handlers_st (k : handler_kind) (h : option hbehav) : M unit :=
  fun st => ({| active_calls := active_calls st;
                event_handlers := set_handler (event_handlers st) k h |}, [], Ok tt).

Definition step (ev : event) : M unit :=
  match ev with
  | EvIncomingCall id now => onIncomingCall id now
  | EvPlaceCall env n cfg r now => place_call env n cfg r now ;; ret tt
  | EvSendMessage env n t => send_message env n t
  | EvCallState id b c => onCallState id b c
  | EvDtmfDigit id d => onCallDtmfDigit id d
  | EvSetHandler k h => set_handlers_st k h
  end.

(** A run over a sequence of events: an exception ends the delivery of
    that event, and the next event is delivered in the state reached. *)
Fixpoint run (st : vstate) (evs : list event) : vstate * list effect :=
  match evs with
  | [] => (st, [])
  | ev :: evs' =>
      let '(st1, e1, _) := step ev st in
      let '(st2, e2) := run st1 evs' in
      (st2, e1 ++ e2)
  end.

Definition initial_state : vstate :=
  {| active_calls := ∅; event_handlers := no_handlers |}.

(** Number of [call_ended] handler calls for [id] in an output. *)
Fixpoint count_call_ended (id : Z) (es : list effect) : nat :=
  match es with
  | [] => 0
  | EHandler (HCallEnded i) :: es' =>
      (if Z.eqb i id then 1 else 0) + count_call_ended id es'
  | _ :: es' => count_call_ended id es'
  end.

(** [registered id st]: [id in self.active_calls]. *)
Definition registered (id : Z) (st : vstate) : bool :=
  match active_calls st !! id with Some _ => true | None => false end.

(** Tracking of [call_ended] calls for [id] along an output: [armed] is
    whether [id] has been stored since its last [call_ended] call or
    deletion. A
    [call_ended] call for [id] while not armed is a second emission for
    the same registration ([None]). *)
Definition ended_step (id : Z) (armed : bool) (e : effect) : option bool :=
  match e with
  | EStore i => Some (if Z.eqb i id then true else armed)
  | EDelete i => Some (if Z.eqb i id then false else armed)
  | EHandler (HCallEnded i) =>
      if Z.eqb i id then (if armed then Some false else None) else Some armed
  | _ => Some armed
  end.

Fixpoint ended_track (id : Z) (armed : bool) (es : list effect) : option bool :=
  match es with
  | [] => Some armed
  | e :: es' =>
      match ended_step id armed e with
      | Some a => ended_track id a es'
      | None => None
      end
  end.

(** Operations that neither write [active_calls] nor call [call_ended]. *)
Definition neutral (e : effect) : Prop :=
  match e with
  | EStore _ | EDelete _ | EHandler (HCallEnded _) => False
  | _ => True
  end.

(** The assignment [event_handlers['call_ended'] = <raising handler>]. *)
Definition sets_raising_call_ended (ev : event) : bool :=
  match ev with
  | EvSetHandler KCallEnded (Some Raises) => true
  | _ => false
  end.

(* ------------------------------------------------------------------ *)
(** ** More of [voip_server.py], and its caller [test.py] *)
(* ------------------------------------------------------------------ *)

(** The digits of a string, in order. *)
Fixpoint digits_of (s : string) : string :=
  match s with
  | EmptyString => EmptyString
  | String c r => if Phone.is_digit c then String c (digits_of r) else digits_of r
  end.

Fixpoint has_char (c : ascii) (s : string) : bool :=
  match s with
  | EmptyString => false
  | String c' r => (Ascii.eqb c' c || has_char c r)%bool
  end.

(** The node [current] reaches in [handle_dtmf] after the digits [ds]
    ([current = current.get(d, {})] for each). *)
Definition menu_walk (current : menu) (ds : list string) : menu :=
  fold_left menu_get ds current.

(** Operations of [stop_service] on pjsua, the logger and the thread. *)
Inductive svc_op :=
| OHangup (id : Z)               (* session.call.hangup(CallOpParam()) *)
| OLogHangupError (id : Z)       (* logging.error(f"Error hanging up call {call_id}: ...") *)
| OSetRegistration (on : bool)   (* self.setRegistration(False) *)
| OLogUnregisterError            (* logging.error(f"Error unregistering account: ...") *)
| OSleep (secs : Z)              (* time.sleep(1) *)
| OLibDestroy                    (* self.ep.libDestroy() *)
| OJoin (timeout : Z).           (* self.event_thread.join(timeout=1) *)

(** Exceptions that leave [stop_service]: [self.event_thread] does not
    exist before [start_service], and [Thread.join] on the current thread
    raises [RuntimeError]. *)
Inductive svc_exn := AttributeError | RuntimeError.

(** One turn of [for call_id, session in ...]: the hangup, logged when it
    raises. *)
Definition hangup_one (hangup_raises : Z -> bool) (kv : Z * CallSession)
    : list svc_op :=
  OHangup kv.1 :: (if hangup_raises kv.1 then [OLogHangupError kv.1] else []).

(** [stop_service]. [hangup_raises id] and [unregister_raises] say which
    pjsua calls raise (both are caught); [event_thread] is [None] when the
    attribute was never set, else whether the thread is alive;
    [from_event_thread] is whether the caller is that thread. The
    iteration order of [list(self.active_calls.items())] is the dict's
    insertion order in Python and the gmap's key order here; the
    properties proved below do not depend on it. *)
Definition stop_service (hangup_raises : Z -> bool) (unregister_raises : bool)
    (event_thread : option bool) (from_event_thread : bool) (st : vstate)
    : list svc_op * option svc_exn :=
  let hang := flat_map (hangup_one hangup_raises) (map_to_list (active_calls st)) in
  let unreg := OSetRegistration false ::
                 (if unregister_raises then [OLogUnregisterError] else []) in
  let '(tail, ex) :=
    match event_thread with
    | None => ([], Some AttributeError)
    | Some alive =>
        if alive then
          (if from_event_thread then ([], Some RuntimeError) else ([OJoin 1], None))
        else ([], None)
    end in
  (hang ++ unreg ++ [OSleep 1; OLibDestroy] ++ tail, ex).

(** Number of hangups of [id] in a list of operations. *)
Fixpoint count_hangup (id : Z) (ops : list svc_op) : nat :=
  match ops with
  | [] => 0
  | OHangup i :: ops' => (if Z.eqb i id then 1 else 0) + count_hangup id ops'
  | _ :: ops' => count_hangup id ops'
  end.

(** Outcome of [libRegisterThread] and of each [libHandleEvents(10)]. *)
Inductive loop_outcome := LOk | LKeyboardInterrupt | LException.

Fixpoint first_failure (outs : list loop_outcome) : option loop_outcome :=
  match outs with
  | [] => None
  | LOk :: outs' => first_failure outs'
  | o :: _ => Some o
  end.

(** [_event_loop], run on the event thread started by [start_service]:
    [outs] are the outcomes of [libRegisterThread] and of the
    [libHandleEvents] calls made while [running] holds. [None]: no call
    raised (the loop is still running, or [running] was cleared). Either
    exception makes the thread call [stop_service] itself. *)
Definition _event_loop (hangup_raises : Z -> bool) (unregister_raises : bool)
    (st : vstate) (outs : list loop_outcome) : option (list svc_op * option svc_exn) :=
  match first_failure outs with
  | None => None
  | Some _ => Some (stop_service hangup_raises unregister_raises (Some true) true st)
  end.

(** [VoIPTestConsole._format_phone_number] of [test.py]: the domain is
    [registrar.split("@")[-1]], with no port stripping. *)
Definition console_format_phone_number (env_sip_registrar : option string)
    (number : string) : string :=
  String.concat "" ["sip:"; Phone.clean_number number; "@";
    List.last (Phone.py_split "@" (Phone.registrar_of env_sip_registrar)) EmptyString].

(** The console's printed lines. *)
Inductive console_line := PPlacingCall (addr : string) | PCallFailed.

(** [VoIPTestConsole.place_call]: formats, prints, and calls the library
    with config [{'record': True, 'initial_audio': ...}] (the library never
    reads ['initial_audio']); an exception is caught and printed. *)
Definition console_place_call (env_sip_registrar : option string) (number : string)
    (makeCall_result : option Z) (now_ms : Z) (st : vstate)
    : vstate * list effect * list console_line :=
  let sip_uri := console_format_phone_number env_sip_registrar number in
  let '(st', es, r) :=
    place_call env_sip_registrar sip_uri
      {| cfg_record := Some true; cfg_dtmf_menu := None |} makeCall_result now_ms st in
  (st', es, PPlacingCall sip_uri :: match r with Ok _ => [] | Err _ => [PCallFailed] end).

(** Registry invariant: each session is stored under its own call id, and
    has no media handle. *)
Definition registry_ok (st : vstate) : Prop :=
  forall id (s : CallSession), active_calls st !! id = Some s ->
    call s = id /\ audio_med s = None.

(** States reached by concrete event sequences. *)
Definition state_with_call0 : vstate :=
  fst (run initial_state
    [EvSetHandler KCallEnded (Some Returns); EvIncomingCall 0 5]).

Definition state_raising_handlers : vstate :=
  fst (run initial_state
    [EvSetHandler KCallEnded (Some Raises); EvSetHandler KIncomingCall (Some Raises);
     EvIncomingCall 0 5]).

Definition state_raising_notify : vstate :=
  fst (run initial_state
    [EvSetHandler KCallConnected (Some Raises); EvSetHandler KDtmfReceived (Some Raises);
     EvIncomingCall 0 5]).

(* ------------------------------------------------------------------ *)
(** ** Examples *)
(* ------------------------------------------------------------------ *)

Example phone_ex1 :
  Phone._format_phone_number (Some "sip:user@provider.example.com:5060")
    "(555) 123-4567" = "sip:5551234567@provider.example.com".
Proof. reflexivity. Qed.

Example phone_ex2 :
  Phone.clean_number "+1 (555) +123" = "+1555123".
Proof. reflexivity. Qed.

Example dtmf_ex_91 :
  handle_dtmf_seq (session_with_menu menu_9_1_X) ["9"; "1"]
  = (session_with_menu menu_9_1_X, [EAction "X" 0]).
Proof. reflexivity. Qed.

Example dtmf_ex_923 :
  dtmf_buffer (fst (handle_dtmf_seq (session_with_menu menu_9_1_X) ["9"; "2"; "9"; "1"]))
  = ["9"; "2"; "9"; "1"].
Proof. reflexivity. Qed.

(* ------------------------------------------------------------------ *)
(** ** Lemmas on the DTMF loop *)
(* ------------------------------------------------------------------ *)

Lemma set_dtmf_buffer_twice (s : CallSession) b1 b2 :
  set_dtmf_buffer (set_dtmf_buffer s b1) b2 = set_dtmf_buffer s b2.
Proof. reflexivity. Qed.

Lemma set_dtmf_buffer_same (s : CallSession) :
  set_dtmf_buffer s (dtmf_buffer s) = s.
Proof. destruct s; reflexivity. Qed.

Lemma menu_get_child (ch : list (string * menu)) a d c :
  assoc_digit d ch = Some c -> menu_get (Node ch a) d = c.
Proof. simpl. intros ->. reflexivity. Qed.

Lemma dtmf_loop_empty id ds buf :
  dtmf_loop id ds empty_menu buf = (buf, []).
Proof. induction ds as [|d ds IH]; simpl; auto. Qed.

Lemma menu_path_app (m : menu) p q :
  menu_path m (p ++ q) =
  match menu_path m p with Some n => menu_path n q | None => None end.
Proof.
  revert m. induction p as [|d p IH]; intros [ch a]; simpl; [done|].
  destruct (assoc_digit d ch); auto.
Qed.

Lemma quiet_path_app (m : menu) p q :
  quiet_path m (p ++ q) = true ->
  quiet_path m p = true /\
  exists n, menu_path m p = Some n /\ quiet_path n q = true.
Proof.
  revert m. induction p as [|d p IH]; intros [ch a]; simpl; [eauto|].
  destruct (assoc_digit d ch) as [c|]; [|done].
  destruct (menu_action c); [done|]. apply IH.
Qed.

(** Walking a quiet prefix fires nothing and keeps the buffer. *)
Lemma dtmf_loop_quiet id (m : menu) p :
  quiet_path m p = true ->
  exists n, menu_path m p = Some n /\
    forall rest buf, dtmf_loop id (p ++ rest) m buf = dtmf_loop id rest n buf.
Proof.
  revert m. induction p as [|d p IH]; intros [ch a] Hq; simpl in *; [eauto|].
  destruct (assoc_digit d ch) as [c|] eqn:Hc; [|done].
  destruct (menu_action c) eqn:Ha; [done|].
  destruct (IH c Hq) as [n [Hn Hl]]. exists n. split; [done|].
  intros rest buf. apply Hl.
Qed.

(** Once the walk has left the tree, [current] stays [{}]. *)
Lemma dtmf_loop_dead id (m : menu) p d rest buf :
  quiet_path m p = true -> menu_path m (p ++ [d]) = None ->
  dtmf_loop id (p ++ d :: rest) m buf = (buf, []).
Proof.
  intros Hq Hnone. destruct (dtmf_loop_quiet id m p Hq) as [[ch a] [Hn Hl]].
  rewrite Hl. rewrite menu_path_app, Hn in Hnone. simpl in *.
  destruct (assoc_digit d ch); [done|]. apply dtmf_loop_empty.
Qed.

Lemma quiet_path_nonempty_truthy (m : menu) p :
  p <> [] -> quiet_path m p = true -> menu_truthy m = true.
Proof.
  destruct p as [|d p]; [done|]. intros _. destruct m as [[|[k v] ch] a]; simpl.
  - done.
  - reflexivity.
Qed.

Lemma path_nonempty_truthy (m n : menu) p :
  p <> [] -> menu_path m p = Some n -> menu_truthy m = true.
Proof.
  destruct p as [|d p]; [done|]. intros _. destruct m as [[|[k v] ch] a]; simpl.
  - done.
  - reflexivity.
Qed.

(** Digits along a quiet path accumulate in the buffer and fire nothing. *)
Lemma handle_dtmf_seq_quiet (m : menu) p : forall (s : CallSession),
  cfg_dtmf_menu (config s) = Some m ->
  quiet_path m (dtmf_buffer s ++ p) = true ->
  handle_dtmf_seq s p = (set_dtmf_buffer s (dtmf_buffer s ++ p), []).
Proof.
  induction p as [|d p IH]; intros s Hm Hq; simpl.
  - rewrite app_nil_r, set_dtmf_buffer_same. reflexivity.
  - unfold handle_dtmf. rewrite Hm.
    replace (dtmf_buffer s ++ d :: p) with ((dtmf_buffer s ++ [d]) ++ p) in Hq
      by (rewrite <- app_assoc; reflexivity).
    destruct (quiet_path_app _ _ _ Hq) as [Hq1 _].
    rewrite (quiet_path_nonempty_truthy m (dtmf_buffer s ++ [d]));
      [| destruct (dtmf_buffer s); discriminate | exact Hq1].
    destruct (dtmf_loop_quiet (call s) m _ Hq1) as [n [_ Hl]].
    specialize (Hl [] (dtmf_buffer s ++ [d])). rewrite app_nil_r in Hl.
    rewrite Hl. simpl.
    rewrite (IH (set_dtmf_buffer s (dtmf_buffer s ++ [d]))); [| exact Hm | exact Hq].
    simpl. rewrite <- app_assoc. reflexivity.
Qed.

(** After the walk of the buffer has left the tree, every digit is kept
    and fires nothing. *)
Lemma handle_dtmf_seq_dead (m : menu) b d : forall ds r (s : CallSession),
  cfg_dtmf_menu (config s) = Some m ->
  dtmf_buffer s = b ++ d :: r ->
  quiet_path m b = true -> menu_path m (b ++ [d]) = None ->
  handle_dtmf_seq s ds = (set_dtmf_buffer s (dtmf_buffer s ++ ds), []).
Proof.
  induction ds as [|x ds IH]; intros r s Hm Hb Hq Hn; simpl.
  - rewrite app_nil_r, set_dtmf_buffer_same. reflexivity.
  - unfold handle_dtmf. rewrite Hm, Hb.
    assert (Hl : dtmf_loop (call s) ((b ++ d :: r) ++ [x]) m ((b ++ d :: r) ++ [x])
                 = ((b ++ d :: r) ++ [x], [])).
    { rewrite <- app_assoc. simpl. apply dtmf_loop_dead; auto. }
    assert (Hrest : handle_dtmf_seq (set_dtmf_buffer s ((b ++ d :: r) ++ [x])) ds
      = (set_dtmf_buffer s (((b ++ d :: r) ++ [x]) ++ ds), [])).
    { rewrite (IH (r ++ [x])); simpl; auto.
      rewrite <- app_assoc. reflexivity. }
    destruct (menu_truthy m); [rewrite Hl|]; rewrite Hrest;
      rewrite <- !app_assoc; reflexivity.
Qed.

(* ------------------------------------------------------------------ *)
(** ** Lemmas on the callbacks *)
(* ------------------------------------------------------------------ *)

Ltac unfold_M :=
  unfold fire, lookup_call, set_handlers_st, mbind, mret, M_bind, M_ret,
    bind, ret, emit, get_state, throw, modify_calls in *.

Ltac run_step :=
  unfold step, onIncomingCall, place_call, send_message, onCallState,
    onCallDtmfDigit in *;
  unfold_M; simpl in *;
  repeat (case_match; simpl in *; simplify_eq/=).

Lemma ended_track_app id a es1 es2 :
  ended_track id a (es1 ++ es2) =
  match ended_track id a es1 with Some a' => ended_track id a' es2 | None => None end.
Proof.
  revert a. induction es1 as [|e es1 IH]; intros a; simpl; [done|].
  destruct (ended_step id a e); auto.
Qed.

Lemma ended_track_neutral id a es :
  Forall neutral es -> ended_track id a es = Some a.
Proof.
  induction 1 as [|e es He _ IH]; simpl; [done|].
  destruct e as [| |[]| | | | | | | | | |]; simpl in *; done.
Qed.

Lemma dtmf_loop_neutral id ds current buf :
  Forall neutral (snd (dtmf_loop id ds current buf)).
Proof.
  revert current buf. induction ds as [|d ds IH]; intros current buf; simpl; [done|].
  destruct (menu_action (menu_get current d)); [|apply IH].
  specialize (IH (menu_get current d) []).
  destruct (dtmf_loop id ds (menu_get current d) []). simpl in *.
  constructor; [exact I | exact IH].
Qed.

Lemma handle_dtmf_neutral (s : CallSession) d :
  Forall neutral (snd (handle_dtmf s d)).
Proof.
  unfold handle_dtmf. repeat case_match; simpl; try done.
  pose proof (dtmf_loop_neutral (call s) (dtmf_buffer s ++ [d]) m
    (dtmf_buffer s ++ [d])) as Hn.
  match goal with Hl : dtmf_loop _ _ _ _ = _ |- _ => rewrite Hl in Hn end.
  exact Hn.
Qed.

Lemma new_CallSession_neutral id cfg now :
  Forall neutral (snd (new_CallSession id cfg now)).
Proof. unfold new_CallSession. case_match; repeat constructor. Qed.

Lemma step_handlers ev (st st' : vstate) es r :
  step ev st = (st', es, r) ->
  event_handlers st' =
  match ev with
  | EvSetHandler k h => set_handler (event_handlers st) k h
  | _ => event_handlers st
  end.
Proof. destruct ev; intros H; run_step; simplify_eq/=; done. Qed.

Lemma registered_insert id i (x : CallSession) (st : vstate) :
  registered id (set_active_calls st (<[i:=x]> (active_calls st))) =
  if Z.eqb i id then true else registered id st.
Proof.
  unfold registered; simpl.
  destruct (Z.eqb_spec i id); subst; simplify_map_eq; done.
Qed.

Lemma registered_delete id i (st : vstate) :
  registered id (set_active_calls st (delete i (active_calls st))) =
  if Z.eqb i id then false else registered id st.
Proof.
  unfold registered; simpl.
  destruct (Z.eqb_spec i id); subst; simplify_map_eq; done.
Qed.

Lemma ended_track_store id a i :
  ended_track id a [EStore i] = Some (if Z.eqb i id then true else a).
Proof. reflexivity. Qed.

Lemma onIncomingCall_track id i now (st st' : vstate) es r :
  onIncomingCall i now st = (st', es, r) ->
  ended_track id (registered id st) es = Some (registered id st').
Proof.
  unfold onIncomingCall.
  pose proof (new_CallSession_neutral i empty_config now) as Hneu.
  destruct (new_CallSession i empty_config now) as [sess e0]; simpl in Hneu.
  unfold_M; simpl. intros H.
  destruct (incoming_call (event_handlers st)) as [[|]|]; simpl in H;
    inversion H; subst; clear H;
    rewrite !ended_track_app, ended_track_neutral by done; simpl;
    rewrite registered_insert; destruct (Z.eqb i id); reflexivity.
Qed.

Lemma place_call_track id env number cfg mk now (st st' : vstate) es r :
  place_call env number cfg mk now st = (st', es, r) ->
  ended_track id (registered id st) es = Some (registered id st').
Proof.
  unfold place_call. unfold_M. destruct mk as [i|]; simpl.
  - pose proof (new_CallSession_neutral i cfg now) as Hneu.
    destruct (new_CallSession i cfg now) as [sess e0]; simpl in *.
    intros H; inversion H; subst; clear H. simpl.
    rewrite !ended_track_app, ended_track_neutral by done; simpl.
    rewrite registered_insert; destruct (Z.eqb i id); reflexivity.
  - intros H; inversion H; subst; reflexivity.
Qed.

Lemma registered_of_lookup id (st : vstate) (x : CallSession) :
  active_calls st !! id = Some x -> registered id st = true.
Proof. unfold registered. intros ->. reflexivity. Qed.

Lemma onCallState_track id i body confirmed (st st' : vstate) es r :
  call_ended (event_handlers st) <> Some Raises ->
  onCallState i body confirmed st = (st', es, r) ->
  ended_track id (registered id st) es = Some (registered id st').
Proof.
  intros Hce. unfold onCallState. unfold_M. simpl. destruct body as [meth|].
  - destruct (String.eqb meth "BYE" && bool_decide (is_Some (active_calls st !! i)))%bool
      eqn:Hb.
    + apply andb_true_iff in Hb as [_ Hs]. apply bool_decide_eq_true in Hs.
      destruct Hs as [x Hx].
      destruct (call_ended (event_handlers st)) as [[|]|]; [|congruence|];
        simpl; intros H; inversion H; subst; clear H;
        rewrite registered_delete;
        destruct (Z.eqb_spec i id); subst; simpl;
        rewrite ?(registered_of_lookup id st x Hx), ?Z.eqb_refl; try reflexivity;
        apply Z.eqb_neq in n; rewrite n; reflexivity.
    + intros H; inversion H; subst; reflexivity.
  - destruct (confirmed && bool_decide (is_Some (active_calls st !! i)))%bool;
      [destruct (call_connected (event_handlers st)) as [[|]|]|]; simpl;
      intros H; inversion H; subst; reflexivity.
Qed.

Lemma onCallDtmfDigit_track id i digit (st st' : vstate) es r :
  onCallDtmfDigit i digit st = (st', es, r) ->
  ended_track id (registered id st) es = Some (registered id st').
Proof.
  unfold onCallDtmfDigit. unfold_M. simpl.
  destruct (active_calls st !! i) as [x|] eqn:Hx;
    [|intros H; inversion H; subst; reflexivity].
  destruct (dtmf_received (event_handlers st)) as [h|] eqn:Hd;
    [|intros H; inversion H; subst; reflexivity].
  pose proof (handle_dtmf_neutral x digit) as Hneu.
  destruct (handle_dtmf x digit) as [x' e]; simpl in *.
  intros H. rewrite Hd in H.
  destruct h; simpl in H; inversion H; subst; clear H; simpl;
    rewrite !ended_track_app, ended_track_neutral by done; simpl;
    rewrite registered_insert;
    destruct (Z.eqb_spec i id); subst; simpl;
    rewrite ?(registered_of_lookup id st x Hx); reflexivity.
Qed.

Lemma step_track id ev (st st' : vstate) es r :
  step ev st = (st', es, r) ->
  call_ended (event_handlers st) <> Some Raises ->
  ended_track id (registered id st) es = Some (registered id st').
Proof.
  destruct ev; intros H Hce; simpl in H.
  - eapply onIncomingCall_track; eauto.
  - unfold_M. destruct (place_call env number cfg makeCall_result now_ms st)
      as [[st1 e1] [a|x]] eqn:Hp; simpl in H; inversion H; subst; clear H;
      rewrite ?app_nil_r; eapply place_call_track; eauto.
  - unfold send_message, emit in H. inversion H; subst. reflexivity.
  - eapply onCallState_track; eauto.
  - eapply onCallDtmfDigit_track; eauto.
  - unfold set_handlers_st in H. inversion H; subst. reflexivity.
Qed.

Lemma call_ended_step ev (st st' : vstate) es r :
  step ev st = (st', es, r) ->
  call_ended (event_handlers st) <> Some Raises ->
  sets_raising_call_ended ev = false ->
  call_ended (event_handlers st') <> Some Raises.
Proof.
  intros H Hce Hset. rewrite (step_handlers _ _ _ _ _ H).
  destruct ev; try exact Hce.
  destruct k; simpl; try exact Hce.
  destruct h as [[|]|]; simpl in *; congruence.
Qed.

Lemma run_track id evs : forall (st : vstate),
  call_ended (event_handlers st) <> Some Raises ->
  Forall (fun ev => sets_raising_call_ended ev = false) evs ->
  ended_track id (registered id st) (snd (run st evs)) =
  Some (registered id (fst (run st evs))).
Proof.
  induction evs as [|ev evs IH]; intros st Hce Hall; simpl; [done|].
  inversion Hall as [|? ? Hev Hrest]; subst.
  destruct (step ev st) as [[st1 e1] r] eqn:Hs.
  pose proof (IH st1 (call_ended_step _ _ _ _ _ Hs Hce Hev) Hrest) as IH1.
  destruct (run st1 evs) as [st2 e2]; simpl in *.
  rewrite ended_track_app, (step_track id ev st st1 e1 r Hs Hce). exact IH1.
Qed.

(* ------------------------------------------------------------------ *)
(** ** C1: duplicate disconnect events *)
(* ------------------------------------------------------------------ *)

(** Claim C1 (as amended). A [BYE] (indeed any call-state event) for a
    call id whose [active_calls] lookup is absent is a no-op: no operation,
    no handler call, state unchanged. And over any sequence of events in
    which the [call_ended] handler never raises, a [call_ended] call for an
    id is never repeated without the id being stored in [active_calls]
    again in between: at most one [call_ended] per registration. *)
Theorem disconnect_once_per_registration :
  (forall id body confirmed (st : vstate),
     active_calls st !! id = None ->
     onCallState id body confirmed st = (st, [], Ok tt)) /\
  (forall id (st : vstate) evs,
     call_ended (event_handlers st) <> Some Raises ->
     Forall (fun ev => sets_raising_call_ended ev = false) evs ->
     is_Some (ended_track id (registered id st) (snd (run st evs)))).
Proof.
  split.
  - intros id body confirmed st Hnone. unfold onCallState. unfold_M. simpl.
    rewrite Hnone. simpl.
    destruct body as [meth|]; [|destruct confirmed];
      simpl; rewrite ?andb_false_r; reflexivity.
  - intros id st evs Hce Hall. rewrite (run_track id evs st Hce Hall). eauto.
Qed.

Lemma disconnect_once_per_registration_witness :
  onCallState 3 (RxMsg "BYE") false initial_state = (initial_state, [], Ok tt) /\
  is_Some (ended_track 0 (registered 0 initial_state)
    (snd (run initial_state
      [EvSetHandler KCallEnded (Some Returns); EvIncomingCall 0 5;
       EvCallState 0 (RxMsg "BYE") false; EvCallState 0 (RxMsg "BYE") false]))).
Proof.
  split.
  - apply (proj1 disconnect_once_per_registration). reflexivity.
  - apply (proj2 disconnect_once_per_registration).
    + simpl. congruence.
    + repeat constructor.
Defined.

(** Claim C1 fails as stated: with a [call_ended] handler that raises,
    the [del active_calls[...]] after it is skipped and a second [BYE]
    for the same id calls [call_ended] again; and pjsua reuses a call id
    after the first call is removed, so one id sees two [call_ended]
    calls even with a handler that returns. *)
Lemma disconnect_once_per_registration_counterexample :
  count_call_ended 0 (snd (run initial_state
    [EvSetHandler KCallEnded (Some Raises); EvIncomingCall 0 5;
     EvCallState 0 (RxMsg "BYE") false; EvCallState 0 (RxMsg "BYE") false])) = 2 /\
  count_call_ended 0 (snd (run initial_state
    [EvSetHandler KCallEnded (Some Returns); EvIncomingCall 0 5;
     EvCallState 0 (RxMsg "BYE") false; EvIncomingCall 0 7;
     EvCallState 0 (RxMsg "BYE") false])) = 2.
Proof. split; vm_compute; reflexivity. Qed.

(* ------------------------------------------------------------------ *)
(** ** C2: what a disconnect does *)
(* ------------------------------------------------------------------ *)

(** Claim C2 (as amended). On a [BYE] for a session present in
    [active_calls], when the [call_ended] handler does not raise,
    [onCallState] calls that handler with the session (when one is set)
    and then deletes the session from [active_calls]; it performs no other
    operation: no player or recorder is stopped, no recording is
    finalised and no transcription job is enqueued. *)
Theorem bye_emits_then_deletes (id : Z) (confirmed : bool) (st : vstate)
    (x : CallSession) :
  active_calls st !! id = Some x ->
  call_ended (event_handlers st) <> Some Raises ->
  onCallState id (RxMsg "BYE") confirmed st =
  (set_active_calls st (delete id (active_calls st)),
   match call_ended (event_handlers st) with
   | Some _ => [EHandler (HCallEnded id)]
   | None => []
   end ++ [EDelete id],
   Ok tt).
Proof.
  intros Hx Hce. unfold onCallState. unfold_M. simpl. rewrite Hx. simpl.
  destruct (call_ended (event_handlers st)) as [[|]|]; [|congruence|]; reflexivity.
Qed.

Lemma bye_emits_then_deletes_witness :
  onCallState 0 (RxMsg "BYE") false state_with_call0 =
  (set_active_calls state_with_call0 (delete 0%Z (active_calls state_with_call0)),
   [EHandler (HCallEnded 0)] ++ [EDelete 0], Ok tt).
Proof.
  apply (bye_emits_then_deletes 0 false state_with_call0
    (fst (new_CallSession 0 empty_config 5))).
  - vm_compute. reflexivity.
  - vm_compute. congruence.
Defined.

(** Claim C2 fails as stated: for a recording session, a [BYE] calls
    [call_ended] before removing the session, and stops neither playback
    nor recording. *)
Lemma bye_emits_then_deletes_counterexample :
  recorder (fst (new_CallSession 0 empty_config 5)) = true /\
  snd (fst (onCallState 0 (RxMsg "BYE") false state_with_call0)) =
    [EHandler (HCallEnded 0); EDelete 0] /\
  Forall (fun e => match e with
                   | EStopTransmitToRecorder _ | EPlayerStopTransmit _ => False
                   | _ => True
                   end)
    (snd (fst (onCallState 0 (RxMsg "BYE") false state_with_call0))).
Proof.
  vm_compute. split; [reflexivity|]. split; [reflexivity|]. repeat constructor.
Qed.

(* ------------------------------------------------------------------ *)
(** ** C3 and C4: DTMF navigation *)
(* ------------------------------------------------------------------ *)

(** Claim C3 (as amended). When the buffer leads from the root along
    existing children without reaching an action, and the next digit has
    no child there, [handle_dtmf] raises nothing and fires no action, but
    keeps the digit in the buffer; from then on every further digit is
    appended as well and no action of the menu fires for that session. *)
Theorem unmatched_digit_kept (s : CallSession) (m : menu) (b : list string)
    (d : string) (ds : list string) :
  cfg_dtmf_menu (config s) = Some m ->
  dtmf_buffer s = b ->
  quiet_path m b = true ->
  menu_path m (b ++ [d]) = None ->
  handle_dtmf_seq s (d :: ds) = (set_dtmf_buffer s (b ++ d :: ds), []).
Proof.
  intros Hm Hb Hq Hn. simpl. unfold handle_dtmf. rewrite Hm, Hb.
  assert (Hl : dtmf_loop (call s) (b ++ [d]) m (b ++ [d]) = (b ++ [d], []))
    by (apply dtmf_loop_dead; auto).
  assert (Hrest : handle_dtmf_seq (set_dtmf_buffer s (b ++ [d])) ds
                  = (set_dtmf_buffer s ((b ++ [d]) ++ ds), [])).
  { rewrite (handle_dtmf_seq_dead m b d ds [] (set_dtmf_buffer s (b ++ [d])));
      simpl; auto. }
  destruct (menu_truthy m); [rewrite Hl|]; rewrite Hrest;
    rewrite <- app_assoc; reflexivity.
Qed.

Lemma unmatched_digit_kept_witness :
  handle_dtmf_seq (set_dtmf_buffer (session_with_menu menu_9_1_X) ["9"]) ["2"; "1"]
  = (set_dtmf_buffer (set_dtmf_buffer (session_with_menu menu_9_1_X) ["9"])
       (["9"] ++ ["2"; "1"]), []).
Proof.
  apply unmatched_digit_kept with (m := menu_9_1_X); reflexivity.
Defined.

(** Claim C3 fails as stated: with the menu [{"9":{"1":{action: X}}}],
    after the digits 9 then 2 the buffer is [9, 2], not empty. *)
Lemma unmatched_digit_kept_counterexample :
  handle_dtmf_seq (session_with_menu menu_9_1_X) ["9"; "2"] =
  (set_dtmf_buffer (session_with_menu menu_9_1_X) ["9"; "2"], []) /\
  dtmf_buffer (fst (handle_dtmf_seq (session_with_menu menu_9_1_X) ["9"; "2"]))
  <> [].
Proof. split; [reflexivity | discriminate]. Qed.

(** Claim C4. Starting from an empty buffer, digits [p] that follow
    existing children without reaching an action fire nothing; the next
    digit [d], reaching a node with action [a], fires [a] exactly once and
    leaves the buffer empty, so the next walk starts at the root. *)
Theorem terminal_action_fires_once (s : CallSession) (m : menu)
    (p : list string) (d : string) (n : menu) (a : string) :
  cfg_dtmf_menu (config s) = Some m ->
  dtmf_buffer s = [] ->
  quiet_path m p = true ->
  menu_path m (p ++ [d]) = Some n ->
  menu_action n = Some a ->
  handle_dtmf_seq s p = (set_dtmf_buffer s p, []) /\
  handle_dtmf (set_dtmf_buffer s p) d = (set_dtmf_buffer s [], [EAction a (call s)]).
Proof.
  intros Hm Hb Hq Hn Ha. split.
  - rewrite (handle_dtmf_seq_quiet m p s Hm); rewrite Hb; auto.
  - unfold handle_dtmf. simpl. rewrite Hm.
    rewrite (path_nonempty_truthy m n (p ++ [d])); [| destruct p; discriminate | exact Hn].
    destruct (dtmf_loop_quiet (call s) m p Hq) as [[ch a'] [Hp Hl]].
    rewrite Hl. rewrite menu_path_app, Hp in Hn. simpl in Hn.
    destruct (assoc_digit d ch) as [c|] eqn:Hc; [|discriminate].
    inversion Hn; subst c. simpl. rewrite Hc, Ha.
    reflexivity.
Qed.

Lemma terminal_action_fires_once_witness :
  handle_dtmf_seq (session_with_menu menu_9_1_X) ["9"] =
    (set_dtmf_buffer (session_with_menu menu_9_1_X) ["9"], []) /\
  handle_dtmf (set_dtmf_buffer (session_with_menu menu_9_1_X) ["9"]) "1" =
    (set_dtmf_buffer (session_with_menu menu_9_1_X) [], [EAction "X" 0]).
Proof.
  apply (terminal_action_fires_once (session_with_menu menu_9_1_X) menu_9_1_X
    ["9"] "1" (Node [] (Some "X")) "X"); reflexivity.
Defined.

(* ------------------------------------------------------------------ *)
(** ** C5: registering an id twice *)
(* ------------------------------------------------------------------ *)

(** Claim C5 (as amended). Storing a session under a call id replaces
    whatever [active_calls] held for it, without any error: [onIncomingCall]
    fails only when its [incoming_call] handler raises, after storing, and
    a [place_call] whose [makeCall] succeeds returns the new session. Being
    a map, [active_calls] holds at most one session per id. *)
Theorem register_overwrites (id now : Z) (st : vstate) env number cfg :
  (let '(st', _, r) := onIncomingCall id now st in
   active_calls st' = <[id := fst (new_CallSession id empty_config now)]> (active_calls st) /\
   (r = Ok tt \/ r = Err (HandlerError (HIncomingCall id)))) /\
  (let '(st', _, r) := place_call env number cfg (Some id) now st in
   active_calls st' = <[id := fst (new_CallSession id cfg now)]> (active_calls st) /\
   r = Ok (fst (new_CallSession id cfg now))).
Proof.
  split.
  - unfold onIncomingCall.
    destruct (new_CallSession id empty_config now) as [sess e0] eqn:Hn. simpl.
    unfold_M. simpl.
    destruct (incoming_call (event_handlers st)) as [[|]|]; simpl; auto.
  - unfold place_call.
    destruct (new_CallSession id cfg now) as [sess e0] eqn:Hn. simpl.
    unfold_M. simpl. auto.
Qed.

(** Claim C5 fails as stated: a second [onIncomingCall] for id 0 raises
    no error and replaces the session stored for it. *)
Lemma register_overwrites_counterexample :
  let '(st', _, r) := onIncomingCall 0 7 state_with_call0 in
  r = Ok tt /\
  active_calls state_with_call0 !! 0%Z = Some (fst (new_CallSession 0 empty_config 5)) /\
  active_calls st' !! 0%Z = Some (fst (new_CallSession 0 empty_config 7)) /\
  fst (new_CallSession 0 empty_config 5) <> fst (new_CallSession 0 empty_config 7).
Proof. vm_compute. split; [reflexivity|]. split; [reflexivity|]. split; [reflexivity|]. discriminate. Qed.

(* ------------------------------------------------------------------ *)
(** ** C6: media operations without a media handle *)
(* ------------------------------------------------------------------ *)

(** Claim C6 (as amended). For a session with no attached media handle
    ([audio_med] is [None]; the code never sets it), [start_recording]
    leaves the session unchanged and performs no operation: it neither
    raises nor logs. *)
Theorem start_recording_without_media (s : CallSession) :
  audio_med s = None -> start_recording s = (s, []).
Proof. intros H. unfold start_recording. rewrite H. destruct (recorder s); reflexivity. Qed.

Lemma start_recording_without_media_witness :
  start_recording (fst (new_CallSession 0 empty_config 5)) =
  (fst (new_CallSession 0 empty_config 5), []).
Proof. apply start_recording_without_media. reflexivity. Defined.

(** Claim C6 fails as stated: [play_audio] on a session with no media
    handle replaces its player and starts transmitting to [None]. *)
Lemma start_recording_without_media_counterexample :
  let s := fst (new_CallSession 0 empty_config 5) in
  audio_med s = None /\
  fst (play_audio s "greeting.wav") <> s /\
  snd (play_audio s "greeting.wav") =
    [ECreatePlayer "greeting.wav"; EPlayerStartTransmit None].
Proof. vm_compute. split; [reflexivity|]. split; [discriminate|reflexivity]. Qed.

(* ------------------------------------------------------------------ *)
(** ** C7: exceptions raised by handlers *)
(* ------------------------------------------------------------------ *)

(** Claim C7 (as amended). Handler exceptions are not caught by the
    callbacks: they leave [onCallState], [onIncomingCall] and
    [onCallDtmfDigit]. When the [call_ended] handler raises on a [BYE],
    the session is not deleted from [active_calls]; when the
    [call_connected] handler raises, the exception leaves [onCallState];
    when the [incoming_call] handler raises, the new session stays
    stored; when the [dtmf_received] handler raises, the exception leaves
    [onCallDtmfDigit] after the session was updated by [handle_dtmf]. *)
Theorem handler_exception_propagates :
  (forall id confirmed (st : vstate) (x : CallSession),
     active_calls st !! id = Some x ->
     call_ended (event_handlers st) = Some Raises ->
     onCallState id (RxMsg "BYE") confirmed st =
     (st, [EHandler (HCallEnded id)], Err (HandlerError (HCallEnded id)))) /\
  (forall id (st : vstate) (x : CallSession),
     active_calls st !! id = Some x ->
     call_connected (event_handlers st) = Some Raises ->
     onCallState id OtherEvent true st =
     (st, [EHandler (HCallConnected id)], Err (HandlerError (HCallConnected id)))) /\
  (forall id now (st : vstate),
     incoming_call (event_handlers st) = Some Raises ->
     let '(st', _, r) := onIncomingCall id now st in
     active_calls st' = <[id := fst (new_CallSession id empty_config now)]> (active_calls st) /\
     r = Err (HandlerError (HIncomingCall id))) /\
  (forall id digit (st : vstate) (x : CallSession),
     active_calls st !! id = Some x ->
     dtmf_received (event_handlers st) = Some Raises ->
     onCallDtmfDigit id digit st =
     (set_active_calls st (<[id := fst (handle_dtmf x digit)]> (active_calls st)),
      snd (handle_dtmf x digit) ++ [EHandler (HDtmfReceived digit)],
      Err (HandlerError (HDtmfReceived digit)))).
Proof.
  split; [|split; [|split]].
  - intros id confirmed st x Hx Hce. unfold onCallState. unfold_M. simpl.
    rewrite Hx. simpl. rewrite Hce. reflexivity.
  - intros id st x Hx Hcc. unfold onCallState. unfold_M. simpl.
    rewrite Hx. simpl. rewrite Hcc. reflexivity.
  - intros id now st Hic. unfold onIncomingCall.
    destruct (new_CallSession id empty_config now) as [sess e0]. simpl.
    unfold_M. simpl. rewrite Hic. simpl. auto.
  - intros id digit st x Hx Hd. unfold onCallDtmfDigit. unfold_M. simpl.
    rewrite Hx, Hd. destruct (handle_dtmf x digit) as [x' e]. simpl.
    rewrite Hd. simpl. reflexivity.
Qed.

Lemma handler_exception_propagates_witness :
  onCallState 0 (RxMsg "BYE") false state_raising_handlers =
    (state_raising_handlers, [EHandler (HCallEnded 0)],
     Err (HandlerError (HCallEnded 0))) /\
  onCallState 0 OtherEvent true state_raising_notify =
    (state_raising_notify, [EHandler (HCallConnected 0)],
     Err (HandlerError (HCallConnected 0))) /\
  (let '(st', _, r) := onIncomingCall 1 6 state_raising_handlers in
   active_calls st' = <[1%Z := fst (new_CallSession 1 empty_config 6)]>
                        (active_calls state_raising_handlers) /\
   r = Err (HandlerError (HIncomingCall 1))) /\
  onCallDtmfDigit 0 "5" state_raising_notify =
    (set_active_calls state_raising_notify
       (<[0%Z := fst (handle_dtmf (fst (new_CallSession 0 empty_config 5)) "5")]>
          (active_calls state_raising_notify)),
     snd (handle_dtmf (fst (new_CallSession 0 empty_config 5)) "5")
       ++ [EHandler (HDtmfReceived "5")],
     Err (HandlerError (HDtmfReceived "5"))).
Proof.
  split; [|split; [|split]].
  - apply (proj1 handler_exception_propagates 0%Z false state_raising_handlers
      (fst (new_CallSession 0 empty_config 5))); vm_compute; reflexivity.
  - apply (proj1 (proj2 handler_exception_propagates) 0%Z state_raising_notify
      (fst (new_CallSession 0 empty_config 5))); vm_compute; reflexivity.
  - apply (proj1 (proj2 (proj2 handler_exception_propagates)) 1%Z 6%Z
      state_raising_handlers).
    vm_compute. reflexivity.
  - apply (proj2 (proj2 (proj2 handler_exception_propagates)) 0%Z "5"
      state_raising_notify (fst (new_CallSession 0 empty_config 5)));
      vm_compute; reflexivity.
Defined.

(** Claim C7 fails as stated: a raising [call_ended] handler makes
    [onCallState] end in an exception and the session stays in
    [active_calls]. *)
Lemma handler_exception_propagates_counterexample :
  let '(st', _, r) := onCallState 0 (RxMsg "BYE") false state_raising_handlers in
  r = Err (HandlerError (HCallEnded 0)) /\ registered 0 st' = true.
Proof. vm_compute. split; reflexivity. Qed.

(* ------------------------------------------------------------------ *)
(** ** C8 and C9: phone number formatting *)
(* ------------------------------------------------------------------ *)

(** Claim C8 (code defect). With [SIP_REGISTRAR] unset, the default
    ["sip:provider.example.com"] yields the domain ["sip"]: the split on
    [":"] meant to drop a port drops the host instead. *)
Theorem format_phone_number_default_registrar :
  Phone._format_phone_number None "(555) 123-4567" = "sip:5551234567@sip" /\
  Phone._format_phone_number (Some "sip:provider.example.com") "(555) 123-4567"
    = "sip:5551234567@sip".
Proof. split; reflexivity. Qed.

Lemma prefix_empty (x : string) : String.prefix "" x = true.
Proof. destruct x; reflexivity. Qed.

(** Claim C9. An address starting with ["sip:"] is handed to [makeCall]
    and [sendInstantMessage] unchanged, and the address used is idempotent:
    formatting an already formatted address returns it unchanged. *)
Theorem sip_address_passthrough env (number : string) cfg mk now text
    (st : vstate) :
  String.prefix "sip:" number = true ->
  (exists es, snd (fst (place_call env number cfg mk now st)) = EMakeCall number :: es) /\
  snd (fst (send_message env number text st)) = [ESendInstantMessage number text] /\
  (forall n, Phone.target_address env (Phone.target_address env n) =
             Phone.target_address env n).
Proof.
  intros Hp.
  assert (Ht : Phone.target_address env number = number)
    by (unfold Phone.target_address; rewrite Hp; reflexivity).
  split; [|split].
  - unfold place_call. rewrite Ht. unfold_M. simpl.
    destruct mk as [i|]; simpl; [destruct (new_CallSession i cfg now)|]; simpl; eauto.
  - unfold send_message. rewrite Ht. reflexivity.
  - intros n. unfold Phone.target_address.
    destruct (String.prefix "sip:" n) eqn:Hn; [rewrite Hn; reflexivity|].
    unfold Phone._format_phone_number. simpl. rewrite prefix_empty. reflexivity.
Qed.

Lemma sip_address_passthrough_witness :
  (exists es, snd (fst (place_call None "sip:100@pbx" empty_config (Some 2%Z) 9 initial_state))
              = EMakeCall "sip:100@pbx" :: es) /\
  snd (fst (send_message None "sip:100@pbx" "hi" initial_state))
    = [ESendInstantMessage "sip:100@pbx" "hi"] /\
  (forall n, Phone.target_address None (Phone.target_address None n) =
             Phone.target_address None n).
Proof.
  apply (sip_address_passthrough None "sip:100@pbx" empty_config (Some 2%Z) 9%Z "hi"
    initial_state). reflexivity.
Defined.

(* ------------------------------------------------------------------ *)
(** ** C10: DTMF delivery needs a [dtmf_received] handler *)
(* ------------------------------------------------------------------ *)

(** Claim C10. [onCallDtmfDigit] leaves the state unchanged and does
    nothing when the call has no session or no [dtmf_received] handler is
    set; when both are present, the session's buffer and menu walk are
    updated by [handle_dtmf]. *)
Theorem dtmf_needs_handler :
  (forall id digit (st : vstate),
     (active_calls st !! id = None \/ dtmf_received (event_handlers st) = None) ->
     onCallDtmfDigit id digit st = (st, [], Ok tt)) /\
  (forall id digit (st : vstate) (s : CallSession) h,
     active_calls st !! id = Some s ->
     dtmf_received (event_handlers st) = Some h ->
     fst (fst (onCallDtmfDigit id digit st)) =
     set_active_calls st (<[id := fst (handle_dtmf s digit)]> (active_calls st))).
Proof.
  split.
  - intros id digit st [H|H]; unfold onCallDtmfDigit; unfold_M; simpl; rewrite H;
      [reflexivity|]. destruct (active_calls st !! id); reflexivity.
  - intros id digit st s h Hs Hh. unfold onCallDtmfDigit. unfold_M. simpl.
    rewrite Hs, Hh. destruct (handle_dtmf s digit) as [s' e]. simpl.
    rewrite Hh. destruct h; reflexivity.
Qed.

Lemma dtmf_needs_handler_witness :
  onCallDtmfDigit 0 "9" state_with_call0 = (state_with_call0, [], Ok tt) /\
  fst (fst (onCallDtmfDigit 0 "9" (fst (run state_with_call0
         [EvSetHandler KDtmfReceived (Some Returns)])))) =
  set_active_calls (fst (run state_with_call0 [EvSetHandler KDtmfReceived (Some Returns)]))
    (<[0%Z := fst (handle_dtmf (fst (new_CallSession 0 empty_config 5)) "9")]>
       (active_calls (fst (run state_with_call0
          [EvSetHandler KDtmfReceived (Some Returns)])))).
Proof.
  split.
  - apply (proj1 dtmf_needs_handler). right. vm_compute. reflexivity.
  - apply (proj2 dtmf_needs_handler 0%Z "9" _ (fst (new_CallSession 0 empty_config 5))
      Returns); vm_compute; reflexivity.
Defined.

(* ------------------------------------------------------------------ *)
(** ** Further properties: phone numbers and the console of [test.py] *)
(* ------------------------------------------------------------------ *)

Lemma clean_from_false (s : string) : Phone.clean_from false s = digits_of s.
Proof.
  induction s as [|c s IH]; simpl; [done|].
  rewrite orb_false_r, IH. reflexivity.
Qed.

Lemma digits_of_head (s r : string) (c : ascii) :
  digits_of s = String c r -> Phone.is_digit c = true.
Proof.
  induction s as [|c' s IH]; simpl; [discriminate|].
  destruct (Phone.is_digit c') eqn:Hd; [|exact IH].
  intros H; inversion H; subst; exact Hd.
Qed.

Lemma digits_of_idem (s : string) : digits_of (digits_of s) = digits_of s.
Proof.
  induction s as [|c s IH]; simpl; [done|].
  destruct (Phone.is_digit c) eqn:Hd; simpl; [rewrite Hd, IH|]; done.
Qed.

(** X1. [re.sub(r'(?!^\+)\D', '', number)] keeps a leading [+] and
    otherwise exactly the digits of [number], in order. *)
Theorem clean_number_shape (n : string) :
  Phone.clean_number n =
  match n with
  | String c r => if Ascii.eqb c "+"%char then String c (digits_of r) else digits_of n
  | EmptyString => EmptyString
  end.
Proof.
  destruct n as [|c r]; [done|]. unfold Phone.clean_number; simpl.
  rewrite clean_from_false.
  destruct (Ascii.eqb c "+"%char); destruct (Phone.is_digit c); reflexivity.
Qed.

(** X2. Cleaning a cleaned number changes nothing. *)
Theorem clean_number_idempotent (n : string) :
  Phone.clean_number (Phone.clean_number n) = Phone.clean_number n.
Proof.
  rewrite (clean_number_shape n).
  destruct n as [|c r]; [reflexivity|].
  destruct (Ascii.eqb c "+"%char) eqn:Hp.
  - rewrite clean_number_shape, Hp, digits_of_idem. reflexivity.
  - rewrite clean_number_shape.
    destruct (digits_of (String c r)) as [|c' r'] eqn:Hds; [reflexivity|].
    pose proof (digits_of_head _ _ _ Hds) as Hd.
    destruct (Ascii.eqb_spec c' "+"%char) as [->|_]; [discriminate|].
    rewrite <- Hds, digits_of_idem. reflexivity.
Qed.

Lemma has_char_append (c : ascii) (a b : string) :
  has_char c (String.append a b) = (has_char c a || has_char c b)%bool.
Proof.
  induction a as [|c' a IH]; simpl; [done|]. rewrite IH, orb_assoc. reflexivity.
Qed.

Lemma py_split_nosep (sep : ascii) (s : string) :
  has_char sep s = false -> Phone.py_split sep s = [s].
Proof.
  induction s as [|c s IH]; simpl; [done|]. intros H.
  apply orb_false_iff in H as [H1 H2]. rewrite H1, IH by done. reflexivity.
Qed.

Lemma py_split_last (sep : ascii) (u t : string) :
  has_char sep t = false ->
  exists l, Phone.py_split sep (String.append u (String sep t)) = l ++ [t] /\ l <> [].
Proof.
  intros Ht. induction u as [|c u IH]; simpl.
  - rewrite Ascii.eqb_refl, py_split_nosep by done. exists [EmptyString]. done.
  - destruct IH as [l [Hl Hne]]. rewrite Hl.
    destruct (Ascii.eqb c sep).
    + exists (EmptyString :: l). split; [reflexivity | done].
    + destruct l as [|q l']; [done|]. exists (String c q :: l'). split; [reflexivity | done].
Qed.

Lemma py_split_hd (sep : ascii) (h p : string) :
  has_char sep h = false ->
  hd EmptyString (Phone.py_split sep (String.append h (String sep p))) = h.
Proof.
  induction h as [|c h IH]; simpl; intros H.
  - rewrite Ascii.eqb_refl. reflexivity.
  - apply orb_false_iff in H as [H1 H2]. rewrite H1.
    specialize (IH H2).
    destruct (Phone.py_split sep (String.append h (String sep p))) as [|q qs];
      simpl in *; subst; reflexivity.
Qed.

(** X3. For a registrar [user@host:port] or [user@host], where the host
    has no [@] or [:] and the port no [@], the library's domain is the
    host. *)
Theorem domain_of_host (u h p : string) :
  has_char "@"%char h = false -> has_char ":"%char h = false ->
  has_char "@"%char p = false ->
  Phone.domain_of (String.append u (String "@"%char (String.append h (String ":"%char p)))) = h /\
  Phone.domain_of (String.append u (String "@"%char h)) = h.
Proof.
  intros Hh Hc Hp. unfold Phone.domain_of. split.
  - destruct (py_split_last "@"%char u (String.append h (String ":"%char p)))
      as [l [Hl _]].
    { rewrite has_char_append, Hh. exact Hp. }
    rewrite Hl, last_last. apply py_split_hd. exact Hc.
  - destruct (py_split_last "@"%char u h Hh) as [l [Hl _]].
    rewrite Hl, last_last, py_split_nosep by exact Hc. reflexivity.
Qed.

Lemma domain_of_host_witness :
  (has_char "@"%char "provider.example.com" = false /\
   has_char ":"%char "provider.example.com" = false /\
   has_char "@"%char "5060" = false) /\
  (Phone.domain_of "user@provider.example.com:5060" = "provider.example.com" /\
   Phone.domain_of "user@provider.example.com" = "provider.example.com").
Proof.
  split; [vm_compute; auto|].
  apply (domain_of_host "user" "provider.example.com" "5060"); vm_compute; reflexivity.
Defined.

(** X4. The console of [test.py] keeps everything after the last [@] of
    the registrar, port included, and everything when it has no [@]. *)
Theorem console_format_domain (u t number : string) :
  has_char "@"%char t = false ->
  console_format_phone_number (Some (String.append u (String "@"%char t))) number
    = String.append "sip:" (String.append (Phone.clean_number number) (String "@"%char t)) /\
  console_format_phone_number (Some t) number
    = String.append "sip:" (String.append (Phone.clean_number number) (String "@"%char t)).
Proof.
  intros Ht. unfold console_format_phone_number; simpl. split.
  - destruct (py_split_last "@"%char u t Ht) as [l [Hl _]].
    rewrite Hl, last_last. reflexivity.
  - rewrite py_split_nosep by exact Ht. reflexivity.
Qed.

Lemma console_format_domain_witness :
  has_char "@"%char "provider.example.com:5060" = false /\
  (console_format_phone_number (Some "user@provider.example.com:5060") "(555) 123-4567"
     = "sip:5551234567@provider.example.com:5060" /\
   console_format_phone_number (Some "provider.example.com:5060") "(555) 123-4567"
     = "sip:5551234567@provider.example.com:5060").
Proof.
  split; [vm_compute; reflexivity|].
  apply (console_format_domain "user" "provider.example.com:5060" "(555) 123-4567").
  vm_compute; reflexivity.
Defined.

(** X5. The console's [place_call] hands the library an address that
    starts with [sip:], so the library dials it unchanged; with
    ['record': True] a recorder object is created for the session (no
    audio is routed to it on this path); a failed [makeCall] leaves the
    registry as it was and is printed, and no exception leaves the
    console. *)
Theorem console_place_call_outcome env number mk now (st : vstate) :
  let a := console_format_phone_number env number in
  console_place_call env number mk now st =
  match mk with
  | None => (st, [EMakeCall a; ELogError "Call failed"], [PPlacingCall a; PCallFailed])
  | Some id =>
      (set_active_calls st
         (<[id := fst (new_CallSession id
                    {| cfg_record := Some true; cfg_dtmf_menu := None |} now)]>
            (active_calls st)),
       [EMakeCall a; ECreateRecorder now; EStore id], [PPlacingCall a])
  end.
Proof.
  unfold console_place_call, place_call, Phone.target_address. simpl.
  unfold_M. rewrite prefix_empty. destruct mk as [id|]; reflexivity.
Qed.

(* ------------------------------------------------------------------ *)
(** ** Further properties: the DTMF loop *)
(* ------------------------------------------------------------------ *)

Lemma dtmf_loop_app id p q : forall (cur : menu) buf,
  dtmf_loop id (p ++ q) cur buf =
  let '(b1, e1) := dtmf_loop id p cur buf in
  let '(b2, e2) := dtmf_loop id q (menu_walk cur p) b1 in (b2, e1 ++ e2).
Proof.
  unfold menu_walk.
  induction p as [|d p IH]; intros cur buf; simpl.
  - destruct (dtmf_loop id q cur buf); reflexivity.
  - destruct (menu_action (menu_get cur d)); rewrite IH; [|reflexivity].
    destruct (dtmf_loop id p (menu_get cur d) []) as [b1 e1].
    destruct (dtmf_loop id q _ b1). reflexivity.
Qed.

(** The actions fired do not depend on the buffer being rebound. *)
Lemma dtmf_loop_effects id ds : forall (cur : menu) buf buf',
  snd (dtmf_loop id ds cur buf) = snd (dtmf_loop id ds cur buf').
Proof.
  induction ds as [|d ds IH]; intros cur buf buf'; simpl; [done|].
  destruct (menu_action (menu_get cur d)); [|apply IH].
  destruct (dtmf_loop id ds (menu_get cur d) []). reflexivity.
Qed.

(** The buffer is kept when nothing fires, and is [[]] otherwise. *)
Lemma dtmf_loop_buffer id ds : forall (cur : menu) buf,
  fst (dtmf_loop id ds cur buf) =
  match snd (dtmf_loop id ds cur buf) with [] => buf | _ => [] end.
Proof.
  induction ds as [|d ds IH]; intros cur buf; simpl; [done|].
  destruct (menu_action (menu_get cur d)); [|apply IH].
  specialize (IH (menu_get cur d) []).
  destruct (dtmf_loop id ds (menu_get cur d) []) as [b e]; simpl in *.
  destruct e; exact IH.
Qed.

Lemma menu_walk_empty ds : menu_walk empty_menu ds = empty_menu.
Proof. unfold menu_walk. induction ds as [|d ds IH]; simpl; done. Qed.

Lemma menu_falsy (m : menu) : menu_truthy m = false -> m = empty_menu.
Proof. destruct m as [[|? ?] [|]]; simpl; done. Qed.

(** A digit appended to a buffer whose walk fires nothing fires at most
    the action of the node it reaches. *)
Lemma dtmf_loop_snoc id (m : menu) b d :
  snd (dtmf_loop id b m b) = [] ->
  dtmf_loop id (b ++ [d]) m (b ++ [d]) =
  match menu_action (menu_get (menu_walk m b) d) with
  | Some a => ([], [EAction a id])
  | None => (b ++ [d], [])
  end.
Proof.
  intros Hq. rewrite dtmf_loop_app.
  pose proof (dtmf_loop_buffer id b m (b ++ [d])) as Hb.
  rewrite (dtmf_loop_effects id b m (b ++ [d]) b), Hq in Hb.
  pose proof (dtmf_loop_effects id b m (b ++ [d]) b) as He. rewrite Hq in He.
  destruct (dtmf_loop id b m (b ++ [d])) as [b1 e1]; simpl in *; subst.
  destruct (menu_action (menu_get (menu_walk m b) d)); reflexivity.
Qed.

Lemma handle_dtmf_config (s : CallSession) d :
  config (fst (handle_dtmf s d)) = config s /\ call (fst (handle_dtmf s d)) = call s.
Proof.
  unfold handle_dtmf. repeat case_match; simpl in *; simplify_eq/=; done.
Qed.

Lemma handle_dtmf_quiet_eq (s : CallSession) (m : menu) (d : string) :
  cfg_dtmf_menu (config s) = Some m ->
  snd (dtmf_loop (call s) (dtmf_buffer s) m (dtmf_buffer s)) = [] ->
  handle_dtmf s d =
    match menu_action (menu_get (menu_walk m (dtmf_buffer s)) d) with
    | Some a => (set_dtmf_buffer s [], [EAction a (call s)])
    | None => (set_dtmf_buffer s (dtmf_buffer s ++ [d]), [])
    end.
Proof.
  intros Hm Hq. unfold handle_dtmf. rewrite Hm. destruct (menu_truthy m) eqn:Ht.
  - rewrite (dtmf_loop_snoc _ _ _ _ Hq).
    destruct (menu_action _); reflexivity.
  - apply menu_falsy in Ht. subst m. rewrite menu_walk_empty. reflexivity.
Qed.

Lemma handle_dtmf_quiet_next (s : CallSession) (m : menu) (d : string) :
  cfg_dtmf_menu (config s) = Some m ->
  snd (dtmf_loop (call s) (dtmf_buffer s) m (dtmf_buffer s)) = [] ->
  let s' := fst (handle_dtmf s d) in
  snd (dtmf_loop (call s') (dtmf_buffer s') m (dtmf_buffer s')) = [].
Proof.
  intros Hm Hq. simpl. rewrite (handle_dtmf_quiet_eq s m d Hm Hq).
  destruct (menu_action (menu_get (menu_walk m (dtmf_buffer s)) d)) eqn:Ha;
    simpl; [reflexivity|].
  rewrite (dtmf_loop_snoc _ _ _ _ Hq), Ha. reflexivity.
Qed.

(** X6. If walking the buffer fires nothing (true of every new session),
    a digit fires at most one action, the one of the node reached by the
    buffer and the digit; the buffer is then cleared, and otherwise the
    digit is appended. The buffer's walk still fires nothing after. *)
Theorem handle_dtmf_at_most_one_action (s : CallSession) (m : menu) (d : string) :
  cfg_dtmf_menu (config s) = Some m ->
  snd (dtmf_loop (call s) (dtmf_buffer s) m (dtmf_buffer s)) = [] ->
  handle_dtmf s d =
    match menu_action (menu_get (menu_walk m (dtmf_buffer s)) d) with
    | Some a => (set_dtmf_buffer s [], [EAction a (call s)])
    | None => (set_dtmf_buffer s (dtmf_buffer s ++ [d]), [])
    end /\
  (let s' := fst (handle_dtmf s d) in
   snd (dtmf_loop (call s') (dtmf_buffer s') m (dtmf_buffer s')) = []).
Proof.
  intros Hm Hq. split.
  - exact (handle_dtmf_quiet_eq s m d Hm Hq).
  - exact (handle_dtmf_quiet_next s m d Hm Hq).
Qed.

Lemma handle_dtmf_at_most_one_action_witness :
  (cfg_dtmf_menu (config (session_with_menu menu_9_1_X)) = Some menu_9_1_X /\
   snd (dtmf_loop 0 [] menu_9_1_X []) = []) /\
  (handle_dtmf (session_with_menu menu_9_1_X) "9" =
     (set_dtmf_buffer (session_with_menu menu_9_1_X) ["9"], []) /\
   snd (dtmf_loop 0 ["9"] menu_9_1_X ["9"]) = []).
Proof.
  split; [split; reflexivity|].
  apply (handle_dtmf_at_most_one_action (session_with_menu menu_9_1_X) menu_9_1_X "9");
    reflexivity.
Defined.

(** One digit, from a session whose buffer's walk fires nothing: at most
    one action, and the buffer's walk still fires nothing. *)
Lemma handle_dtmf_quiet_step (s : CallSession) d :
  (forall m, cfg_dtmf_menu (config s) = Some m ->
     snd (dtmf_loop (call s) (dtmf_buffer s) m (dtmf_buffer s)) = []) ->
  length (snd (handle_dtmf s d)) <= 1 /\
  (forall m, cfg_dtmf_menu (config (fst (handle_dtmf s d))) = Some m ->
     snd (dtmf_loop (call (fst (handle_dtmf s d))) (dtmf_buffer (fst (handle_dtmf s d)))
            m (dtmf_buffer (fst (handle_dtmf s d)))) = []).
Proof.
  intros Hinv. destruct (handle_dtmf_config s d) as [Hc _].
  rewrite Hc. destruct (cfg_dtmf_menu (config s)) as [m|] eqn:Hm.
  - split.
    + rewrite (handle_dtmf_quiet_eq s m d Hm (Hinv m eq_refl)).
      destruct (menu_action _); simpl; lia.
    + intros m' Hm'. inversion Hm'; subst.
      exact (handle_dtmf_quiet_next s m' d Hm (Hinv m' eq_refl)).
  - split; [|done]. unfold handle_dtmf. rewrite Hm. simpl. lia.
Qed.

Lemma handle_dtmf_seq_quiet_inv ds : forall (s : CallSession),
  (forall m, cfg_dtmf_menu (config s) = Some m ->
     snd (dtmf_loop (call s) (dtmf_buffer s) m (dtmf_buffer s)) = []) ->
  forall m, cfg_dtmf_menu (config (fst (handle_dtmf_seq s ds))) = Some m ->
    snd (dtmf_loop (call (fst (handle_dtmf_seq s ds)))
           (dtmf_buffer (fst (handle_dtmf_seq s ds))) m
           (dtmf_buffer (fst (handle_dtmf_seq s ds)))) = [].
Proof.
  induction ds as [|d ds IH]; intros s Hinv; simpl; [exact Hinv|].
  destruct (handle_dtmf_quiet_step s d Hinv) as [_ Hinv1].
  destruct (handle_dtmf s d) as [s1 e1]; simpl in *.
  specialize (IH s1 Hinv1).
  destruct (handle_dtmf_seq s1 ds) as [s2 e2]; simpl in *. exact IH.
Qed.

Lemma handle_dtmf_seq_app (s : CallSession) p q :
  handle_dtmf_seq s (p ++ q) =
  let '(s1, e1) := handle_dtmf_seq s p in
  let '(s2, e2) := handle_dtmf_seq s1 q in (s2, e1 ++ e2).
Proof.
  revert s. induction p as [|d p IH]; intros s; simpl.
  - destruct (handle_dtmf_seq s q); reflexivity.
  - destruct (handle_dtmf s d) as [s1 e1]. rewrite IH.
    destruct (handle_dtmf_seq s1 p) as [s2 e2].
    destruct (handle_dtmf_seq s2 q) as [s3 e3].
    rewrite app_assoc. reflexivity.
Qed.

(** X7. In any sequence of digits delivered to a new session, each digit
    fires at most one action: the output of the sequence is the output
    of the digits before it, then that digit's output of length at most
    one, then the output of the digits after it. *)
Theorem dtmf_one_action_per_digit (id now : Z) (cfg : session_config)
    (ds1 : list string) (d : string) (ds2 : list string) :
  let s := fst (new_CallSession id cfg now) in
  let s1 := fst (handle_dtmf_seq s ds1) in
  length (snd (handle_dtmf s1 d)) <= 1 /\
  snd (handle_dtmf_seq s (ds1 ++ d :: ds2)) =
    snd (handle_dtmf_seq s ds1) ++ snd (handle_dtmf s1 d) ++
    snd (handle_dtmf_seq (fst (handle_dtmf s1 d)) ds2).
Proof.
  cbv zeta.
  assert (Hinv0 : forall m,
    cfg_dtmf_menu (config (fst (new_CallSession id cfg now))) = Some m ->
    snd (dtmf_loop (call (fst (new_CallSession id cfg now)))
           (dtmf_buffer (fst (new_CallSession id cfg now))) m
           (dtmf_buffer (fst (new_CallSession id cfg now)))) = []).
  { intros m _. unfold new_CallSession. case_match; reflexivity. }
  pose proof (handle_dtmf_seq_quiet_inv ds1 _ Hinv0) as Hinv1.
  split; [exact (proj1 (handle_dtmf_quiet_step _ d Hinv1))|].
  rewrite handle_dtmf_seq_app.
  destruct (handle_dtmf_seq (fst (new_CallSession id cfg now)) ds1) as [s1 e1].
  simpl. destruct (handle_dtmf s1 d) as [s2 e2]. simpl.
  destruct (handle_dtmf_seq s2 ds2) as [s3 e3]. reflexivity.
Qed.

(** X8. Without a menu, or with an empty one ([{}] is falsy), every digit
    is appended to the buffer and nothing fires. *)
Theorem handle_dtmf_seq_no_menu (s : CallSession) (ds : list string) :
  match cfg_dtmf_menu (config s) with Some m => menu_truthy m = false | None => True end ->
  handle_dtmf_seq s ds = (set_dtmf_buffer s (dtmf_buffer s ++ ds), []).
Proof.
  revert s. induction ds as [|d ds IH]; intros s Hm; simpl.
  - rewrite app_nil_r, set_dtmf_buffer_same. reflexivity.
  - assert (H1 : handle_dtmf s d = (set_dtmf_buffer s (dtmf_buffer s ++ [d]), [])).
    { unfold handle_dtmf. destruct (cfg_dtmf_menu (config s)); [rewrite Hm|]; reflexivity. }
    rewrite H1, IH by exact Hm. simpl. rewrite <- app_assoc. reflexivity.
Qed.

Lemma handle_dtmf_seq_no_menu_witness :
  True /\
  handle_dtmf_seq (fst (new_CallSession 3 empty_config 5)) ["1"; "2"] =
    (set_dtmf_buffer (fst (new_CallSession 3 empty_config 5)) ["1"; "2"], []).
Proof.
  split; [exact I|].
  apply (handle_dtmf_seq_no_menu (fst (new_CallSession 3 empty_config 5)) ["1"; "2"]).
  exact I.
Defined.

(* ------------------------------------------------------------------ *)
(** ** Further properties: the registry across events *)
(* ------------------------------------------------------------------ *)

(** X9. One event changes [active_calls] in one of four ways: not at all;
    by storing a fresh session; by a BYE for a registered id, which
    removes it; or by a digit for a registered id, which stores that
    session after [handle_dtmf]. *)
Theorem step_registry ev (st st' : vstate) es r :
  step ev st = (st', es, r) ->
  active_calls st' = active_calls st \/
  (exists id cfg now,
     active_calls st' = <[id := fst (new_CallSession id cfg now)]> (active_calls st)) \/
  (exists id c, ev = EvCallState id (RxMsg "BYE") c /\
     is_Some (active_calls st !! id) /\ active_calls st' = delete id (active_calls st)) \/
  (exists id d s, ev = EvDtmfDigit id d /\ active_calls st !! id = Some s /\
     active_calls st' = <[id := fst (handle_dtmf s d)]> (active_calls st)).
Proof.
  destruct ev as [i now|env number cfg mk now|env number text|i body confirmed|i digit|k h];
    simpl; intros H.
  - unfold onIncomingCall in H.
    destruct (new_CallSession i empty_config now) as [sess e0] eqn:Hn.
    unfold_M. simpl in H.
    right; left. exists i, empty_config, now. rewrite Hn.
    destruct (incoming_call (event_handlers st)) as [[|]|]; simpl in H;
      inversion H; subst; reflexivity.
  - unfold place_call in H. unfold_M. destruct mk as [i|]; simpl in H.
    + destruct (new_CallSession i cfg now) as [sess e0] eqn:Hn. simpl in H.
      inversion H; subst. right; left. exists i, cfg, now. rewrite Hn. reflexivity.
    + inversion H; subst. left. reflexivity.
  - unfold send_message in H. unfold_M. inversion H; subst. left. reflexivity.
  - unfold onCallState in H. unfold_M. simpl in H. destruct body as [meth|].
    + destruct (String.eqb meth "BYE" && bool_decide (is_Some (active_calls st !! i)))%bool
        eqn:Hb.
      * apply andb_true_iff in Hb as [Hbye Hs].
        apply String.eqb_eq in Hbye. apply bool_decide_eq_true in Hs. subst meth.
        destruct (call_ended (event_handlers st)) as [[|]|]; simpl in H;
          inversion H; subst; [| left; reflexivity |];
          right; right; left; exists i, confirmed; done.
      * inversion H; subst. left. reflexivity.
    + destruct (confirmed && bool_decide (is_Some (active_calls st !! i)))%bool;
        [destruct (call_connected (event_handlers st)) as [[|]|]|]; simpl in H;
        inversion H; subst; left; reflexivity.
  - unfold onCallDtmfDigit in H. unfold_M. simpl in H.
    destruct (active_calls st !! i) as [x|] eqn:Hx;
      [|inversion H; subst; left; reflexivity].
    destruct (dtmf_received (event_handlers st)) as [hb|] eqn:Hd;
      [|inversion H; subst; left; reflexivity].
    destruct (handle_dtmf x digit) as [x' e] eqn:Hh. rewrite Hd in H.
    right; right; right. exists i, digit, x. rewrite Hh.
    destruct hb; simpl in H; inversion H; subst; done.
  - unfold set_handlers_st in H. inversion H; subst. left. reflexivity.
Qed.

Lemma step_registry_witness :
  let ev := EvIncomingCall 3 5 in
  step ev initial_state =
    (fst (fst (step ev initial_state)), snd (fst (step ev initial_state)),
     snd (step ev initial_state)) /\
  (active_calls (fst (fst (step ev initial_state))) = active_calls initial_state \/
   (exists id cfg now,
      active_calls (fst (fst (step ev initial_state)))
        = <[id := fst (new_CallSession id cfg now)]> (active_calls initial_state)) \/
   (exists id c, ev = EvCallState id (RxMsg "BYE") c /\
      is_Some (active_calls initial_state !! id) /\
      active_calls (fst (fst (step ev initial_state)))
        = delete id (active_calls initial_state)) \/
   (exists id d s, ev = EvDtmfDigit id d /\ active_calls initial_state !! id = Some s /\
      active_calls (fst (fst (step ev initial_state)))
        = <[id := fst (handle_dtmf s d)]> (active_calls initial_state))).
Proof.
  intros ev. split; [reflexivity|].
  apply (step_registry ev initial_state (fst (fst (step ev initial_state)))
    (snd (fst (step ev initial_state))) (snd (step ev initial_state))).
  reflexivity.
Defined.

Lemma new_CallSession_fields id cfg now :
  call (fst (new_CallSession id cfg now)) = id /\
  audio_med (fst (new_CallSession id cfg now)) = None.
Proof. unfold new_CallSession. case_match; split; reflexivity. Qed.

Lemma handle_dtmf_audio_med (s : CallSession) d :
  audio_med (fst (handle_dtmf s d)) = audio_med s.
Proof. unfold handle_dtmf. repeat case_match; simpl in *; simplify_eq/=; done. Qed.

Lemma step_registry_ok ev (st st' : vstate) es r :
  registry_ok st -> step ev st = (st', es, r) -> registry_ok st'.
Proof.
  intros Hok H id s Hs.
  destruct (step_registry _ _ _ _ _ H)
    as [Heq | [[i [cfg [now Heq]]] | [[i [c [_ [_ Heq]]]] | [i [d [x [_ [Hx Heq]]]]]]]];
    rewrite Heq in Hs.
  - exact (Hok id s Hs).
  - destruct (Z.eq_dec i id) as [->|Hne].
    + rewrite lookup_insert_eq in Hs. inversion Hs; subst. apply new_CallSession_fields.
    + rewrite lookup_insert_ne in Hs by exact Hne. exact (Hok id s Hs).
  - apply lookup_delete_Some in Hs as [_ Hs]. exact (Hok id s Hs).
  - destruct (Z.eq_dec i id) as [->|Hne].
    + rewrite lookup_insert_eq in Hs. inversion Hs; subst.
      destruct (Hok id x Hx) as [Hc Ha].
      destruct (handle_dtmf_config x d) as [_ Hc'].
      rewrite Hc', handle_dtmf_audio_med. auto.
    + rewrite lookup_insert_ne in Hs by exact Hne. exact (Hok id s Hs).
Qed.

Lemma run_registry_ok evs : forall (st : vstate),
  registry_ok st -> registry_ok (fst (run st evs)).
Proof.
  induction evs as [|ev evs IH]; intros st Hok; simpl; [exact Hok|].
  destruct (step ev st) as [[st1 e1] r1] eqn:Hs.
  pose proof (step_registry_ok _ _ _ _ _ Hok Hs) as Hok1.
  specialize (IH st1 Hok1).
  destruct (run st1 evs) as [st2 e2]. exact IH.
Qed.

(** X10. In every state the library reaches, each session is stored under
    its own call id and has no media handle, so [start_recording] does
    nothing and [stop_recording] returns [None]: no recording is ever
    started or stopped. *)
Theorem run_sessions_no_media (evs : list event) (id : Z) (s : CallSession) :
  active_calls (fst (run initial_state evs)) !! id = Some s ->
  call s = id /\ audio_med s = None /\
  start_recording s = (s, []) /\ stop_recording s = (None, []).
Proof.
  intros Hs.
  assert (Hinit : registry_ok initial_state).
  { intros i x Hx. simpl in Hx. rewrite lookup_empty in Hx. discriminate. }
  destruct (run_registry_ok evs initial_state Hinit id s Hs) as [Hc Ha].
  unfold start_recording, stop_recording. rewrite Ha.
  split; [exact Hc|]. split; [reflexivity|]. destruct (recorder s); split; reflexivity.
Qed.

Lemma run_sessions_no_media_witness :
  active_calls (fst (run initial_state [EvIncomingCall 3 5])) !! 3%Z
    = Some (fst (new_CallSession 3 empty_config 5)) /\
  (call (fst (new_CallSession 3 empty_config 5)) = 3%Z /\
   audio_med (fst (new_CallSession 3 empty_config 5)) = None /\
   start_recording (fst (new_CallSession 3 empty_config 5))
     = (fst (new_CallSession 3 empty_config 5), []) /\
   stop_recording (fst (new_CallSession 3 empty_config 5)) = (None, [])).
Proof.
  split; [vm_compute; reflexivity|].
  apply (run_sessions_no_media [EvIncomingCall 3 5]). vm_compute. reflexivity.
Defined.

(** X11. A call id leaves the registry only through a BYE for that id. *)
Theorem only_bye_unregisters ev (st st' : vstate) es r (id : Z) :
  step ev st = (st', es, r) ->
  registered id st = true -> registered id st' = false ->
  exists c, ev = EvCallState id (RxMsg "BYE") c.
Proof.
  intros H Hin Hout. unfold registered in *.
  destruct (step_registry _ _ _ _ _ H)
    as [Heq | [[i [cfg [now Heq]]] | [[i [c [Hev [_ Heq]]]] | [i [d [x [_ [Hx Heq]]]]]]]];
    rewrite Heq in Hout.
  - congruence.
  - destruct (Z.eq_dec i id) as [->|Hne].
    + rewrite lookup_insert_eq in Hout. discriminate.
    + rewrite lookup_insert_ne in Hout by exact Hne. congruence.
  - destruct (Z.eq_dec i id) as [->|Hne]; [eauto|].
    rewrite lookup_delete_ne in Hout by exact Hne. congruence.
  - destruct (Z.eq_dec i id) as [->|Hne].
    + rewrite lookup_insert_eq in Hout. discriminate.
    + rewrite lookup_insert_ne in Hout by exact Hne. congruence.
Qed.

Lemma only_bye_unregisters_witness :
  (step (EvCallState 0 (RxMsg "BYE") false) state_with_call0 =
     (fst (fst (step (EvCallState 0 (RxMsg "BYE") false) state_with_call0)),
      snd (fst (step (EvCallState 0 (RxMsg "BYE") false) state_with_call0)),
      snd (step (EvCallState 0 (RxMsg "BYE") false) state_with_call0)) /\
   registered 0 state_with_call0 = true /\
   registered 0 (fst (fst (step (EvCallState 0 (RxMsg "BYE") false) state_with_call0)))
     = false) /\
  exists c, EvCallState 0 (RxMsg "BYE") false = EvCallState 0 (RxMsg "BYE") c.
Proof.
  split; [split; [|split]; vm_compute; reflexivity|].
  apply (only_bye_unregisters (EvCallState 0 (RxMsg "BYE") false) state_with_call0
    (fst (fst (step (EvCallState 0 (RxMsg "BYE") false) state_with_call0)))
    (snd (fst (step (EvCallState 0 (RxMsg "BYE") false) state_with_call0)))
    (snd (step (EvCallState 0 (RxMsg "BYE") false) state_with_call0)) 0);
    vm_compute; reflexivity.
Defined.

(** Effects of [handle_dtmf] are calls of menu actions only. *)
Lemma dtmf_loop_actions id ds : forall (cur : menu) buf,
  Forall (fun e => exists a i, e = EAction a i) (snd (dtmf_loop id ds cur buf)).
Proof.
  induction ds as [|d ds IH]; intros cur buf; simpl; [done|].
  destruct (menu_action (menu_get cur d)) as [a|]; [|apply IH].
  specialize (IH (menu_get cur d) []).
  destruct (dtmf_loop id ds (menu_get cur d) []). simpl in *.
  constructor; [eauto | exact IH].
Qed.

Lemma handle_dtmf_actions (s : CallSession) d :
  Forall (fun e => exists a i, e = EAction a i) (snd (handle_dtmf s d)).
Proof.
  unfold handle_dtmf. repeat case_match; simpl; try done.
  pose proof (dtmf_loop_actions (call s) (dtmf_buffer s ++ [d]) m
    (dtmf_buffer s ++ [d])) as Hn.
  match goal with Hl : dtmf_loop _ _ _ _ = _ |- _ => rewrite Hl in Hn end.
  exact Hn.
Qed.

Lemma new_CallSession_effects id cfg now :
  snd (new_CallSession id cfg now) = [] \/
  snd (new_CallSession id cfg now) = [ECreateRecorder now].
Proof. unfold new_CallSession. case_match; simpl; auto. Qed.

(** X12. [call_connected] is called for [id] only by a non-message call
    state event for [id], when the call is confirmed and registered, and
    that event changes nothing. *)
Theorem call_connected_only_confirmed ev (st st' : vstate) es r (id : Z) :
  step ev st = (st', es, r) -> In (EHandler (HCallConnected id)) es ->
  ev = EvCallState id OtherEvent true /\ registered id st = true /\ st' = st.
Proof.
  destruct ev as [i now|env number cfg mk now|env number text|i body confirmed|i digit|k h];
    simpl; intros H Hin.
  - unfold onIncomingCall in H.
    pose proof (new_CallSession_effects i empty_config now) as He.
    destruct (new_CallSession i empty_config now) as [sess e0]; simpl in He.
    unfold_M. simpl in H.
    destruct (incoming_call (event_handlers st)) as [[|]|]; simpl in H;
      inversion H; subst; exfalso;
      destruct He as [-> | ->]; simpl in Hin; intuition congruence.
  - unfold place_call in H. unfold_M. destruct mk as [i|]; simpl in H.
    + pose proof (new_CallSession_effects i cfg now) as He.
      destruct (new_CallSession i cfg now) as [sess e0]; simpl in *.
      inversion H; subst; exfalso.
      destruct He as [-> | ->]; simpl in Hin; intuition congruence.
    + inversion H; subst; exfalso. simpl in Hin. intuition congruence.
  - unfold send_message in H. unfold_M. inversion H; subst; exfalso.
    simpl in Hin. intuition congruence.
  - unfold onCallState in H. unfold_M. simpl in H. destruct body as [meth|].
    + exfalso.
      destruct (String.eqb meth "BYE" && bool_decide (is_Some (active_calls st !! i)))%bool;
        [destruct (call_ended (event_handlers st)) as [[|]|]|]; simpl in H;
        inversion H; subst; simpl in Hin; intuition congruence.
    + destruct (confirmed && bool_decide (is_Some (active_calls st !! i)))%bool eqn:Hc.
      * apply andb_true_iff in Hc as [-> Hs]. apply bool_decide_eq_true in Hs.
        destruct Hs as [x Hx].
        destruct (call_connected (event_handlers st)) as [[|]|]; simpl in H;
          inversion H; subst; simpl in Hin; intuition (try congruence);
          match goal with E : EHandler _ = EHandler _ |- _ => inversion E; subst end;
          unfold registered; rewrite Hx; auto.
      * inversion H; subst. simpl in Hin. contradiction.
  - exfalso. unfold onCallDtmfDigit in H. unfold_M. simpl in H.
    destruct (active_calls st !! i) as [x|];
      [|inversion H; subst; simpl in Hin; contradiction].
    destruct (dtmf_received (event_handlers st)) as [hb|] eqn:Hd;
      [|inversion H; subst; simpl in Hin; contradiction].
    pose proof (handle_dtmf_actions x digit) as Ha.
    destruct (handle_dtmf x digit) as [x' e]; simpl in Ha. rewrite Hd in H.
    rewrite List.Forall_forall in Ha.
    destruct hb; simpl in H; inversion H; subst;
      rewrite ?in_app_iff in Hin; simpl in Hin;
      (destruct Hin as [Hin | Hin]; [destruct (Ha _ Hin) as [? [? ?]]; discriminate|]);
      intuition congruence.
  - unfold set_handlers_st in H. inversion H; subst. simpl in Hin. contradiction.
Qed.

Lemma call_connected_only_confirmed_witness :
  let ev := EvCallState 0 OtherEvent true in
  let st := fst (run initial_state
              [EvSetHandler KCallConnected (Some Returns); EvIncomingCall 0 5]) in
  (step ev st = (fst (fst (step ev st)), snd (fst (step ev st)), snd (step ev st)) /\
   In (EHandler (HCallConnected 0)) (snd (fst (step ev st)))) /\
  (ev = EvCallState 0 OtherEvent true /\ registered 0 st = true /\
   fst (fst (step ev st)) = st).
Proof.
  intros ev st. split; [split; [reflexivity | vm_compute; left; reflexivity]|].
  apply (call_connected_only_confirmed ev st (fst (fst (step ev st)))
    (snd (fst (step ev st))) (snd (step ev st)) 0);
    [reflexivity | vm_compute; left; reflexivity].
Defined.

(* ------------------------------------------------------------------ *)
(** ** Further properties: [stop_service] and [_event_loop] *)
(* ------------------------------------------------------------------ *)

Lemma count_hangup_app id l1 l2 :
  count_hangup id (l1 ++ l2) = count_hangup id l1 + count_hangup id l2.
Proof.
  induction l1 as [|o l1 IH]; simpl; [done|].
  destruct o; simpl; rewrite IH; try reflexivity. apply Nat.add_assoc.
Qed.

Lemma hangups_count hr (l : list (Z * CallSession)) id :
  NoDup l.*1 ->
  count_hangup id (flat_map (hangup_one hr) l) = if bool_decide (id ∈ l.*1) then 1 else 0.
Proof.
  induction l as [|[i x] l IH]; intros Hnd; [reflexivity|].
  rewrite fmap_cons in Hnd |- *. simpl fst in *.
  inversion Hnd as [|? ? Hnin Hnd']; subst.
  change (flat_map (hangup_one hr) ((i, x) :: l))
    with (hangup_one hr (i, x) ++ flat_map (hangup_one hr) l).
  rewrite count_hangup_app, IH by exact Hnd'. unfold hangup_one. cbn [fst count_hangup].
  {
    assert (Hc : count_hangup id (if hr i then [OLogHangupError i] else []) = 0)
      by (destruct (hr i); reflexivity).
    rewrite Hc.
    destruct (Z.eqb_spec i id) as [->|Hne].
    + rewrite (bool_decide_eq_true_2 (id ∈ id :: l.*1)) by (apply elem_of_cons; left; done).
      rewrite bool_decide_eq_false_2 by exact Hnin. reflexivity.
    + assert (Hiff : id ∈ i :: l.*1 <-> id ∈ l.*1).
      { rewrite elem_of_cons. split; [intros [->|?]; [congruence|done] | auto]. }
      rewrite (bool_decide_ext _ _ Hiff). simpl. reflexivity.
  }
Qed.

Lemma hangup_logs hr (l : list (Z * CallSession)) id :
  In (OLogHangupError id) (flat_map (hangup_one hr) l) <-> id ∈ l.*1 /\ hr id = true.
Proof.
  induction l as [|[i x] l IH]; simpl.
  - rewrite elem_of_nil. tauto.
  - rewrite in_app_iff, IH, elem_of_cons. unfold hangup_one; simpl.
    change (list_fmap (Z * CallSession)%type Z fst l) with (l.*1).
    destruct (hr i) eqn:Hh; simpl; split.
    + intros [Hx|[[Hx|[]]|Hx]]; [discriminate| |tauto].
      injection Hx as ->. split; [left; reflexivity | exact Hh].
    + intros [[->|Hx] Hx2]; [right; left; left; reflexivity | right; right; auto].
    + intros [Hx|[[]|Hx]]; [discriminate|tauto].
    + intros [[->|Hx] Hx2]; [congruence | right; right; auto].
Qed.

Lemma hangup_in hr (l : list (Z * CallSession)) id :
  In (OHangup id) (flat_map (hangup_one hr) l) <-> id ∈ l.*1.
Proof.
  induction l as [|[i x] l IH]; simpl.
  - rewrite elem_of_nil. tauto.
  - rewrite in_app_iff, IH, elem_of_cons. unfold hangup_one; simpl.
    change (list_fmap (Z * CallSession)%type Z fst l) with (l.*1).
    split.
    + intros [Hx|[Hx|Hx]]; [injection Hx as ->; left; reflexivity| |right; exact Hx].
      destruct (hr i); simpl in Hx; intuition congruence.
    + intros [->|Hx]; [left; reflexivity | right; right; exact Hx].
Qed.

Lemma hangup_kinds hr (l : list (Z * CallSession)) o :
  In o (flat_map (hangup_one hr) l) -> exists i, o = OHangup i \/ o = OLogHangupError i.
Proof.
  rewrite in_flat_map. intros [[i x] [_ Ho]]. unfold hangup_one in Ho; simpl in Ho.
  exists i. destruct (hr i); simpl in Ho; intuition.
Qed.

Lemma registered_keys id (st : vstate) :
  registered id st = true <-> id ∈ (map_to_list (active_calls st)).*1.
Proof.
  unfold registered. rewrite list_elem_of_fmap. split.
  - destruct (active_calls st !! id) as [x|] eqn:Hx; [|done]. intros _.
    exists (id, x). split; [done|]. apply elem_of_map_to_list. exact Hx.
  - intros [[i x] [-> Hin]]. apply elem_of_map_to_list in Hin. simpl. rewrite Hin. done.
Qed.

Lemma count_hangup_joins id tail :
  (forall o, In o tail -> o = OJoin 1) -> count_hangup id tail = 0.
Proof.
  induction tail as [|o tail IHt]; intros Ht; simpl; [done|].
  rewrite (Ht o) by (left; done). simpl. apply IHt. intros o' Ho'. apply Ht. right. done.
Qed.

Lemma stop_service_shape hr ur et fe (st : vstate) :
  exists tail,
    fst (stop_service hr ur et fe st) =
      flat_map (hangup_one hr) (map_to_list (active_calls st)) ++
      (OSetRegistration false :: (if ur then [OLogUnregisterError] else [])) ++
      [OSleep 1; OLibDestroy] ++ tail /\
    (forall o, In o tail -> o = OJoin 1) /\
    snd (stop_service hr ur et fe st) =
      match et with
      | None => Some AttributeError
      | Some alive => if (alive && fe)%bool then Some RuntimeError else None
      end.
Proof.
  unfold stop_service. destruct et as [[|]|]; [destruct fe| | ]; simpl;
    eexists; (split; [reflexivity | split; [|reflexivity]]);
    simpl; intuition.
Qed.

(** X13. [stop_service] hangs up every registered call exactly once and
    no other, logs an error for exactly the hangups that raise, always
    unregisters the account and destroys the library, and logs the
    unregistration error exactly when it raises. It ends in
    [AttributeError] when [start_service] never ran, in [RuntimeError]
    when called from the live event thread, and normally otherwise. *)
Theorem stop_service_hangs_up_all hr ur et fe (st : vstate) :
  let ops := fst (stop_service hr ur et fe st) in
  (forall id, count_hangup id ops = if registered id st then 1 else 0) /\
  (forall id, In (OLogHangupError id) ops <-> registered id st = true /\ hr id = true) /\
  In (OSetRegistration false) ops /\ In OLibDestroy ops /\
  (In OLogUnregisterError ops <-> ur = true) /\
  snd (stop_service hr ur et fe st) =
    match et with
    | None => Some AttributeError
    | Some alive => if (alive && fe)%bool then Some RuntimeError else None
    end.
Proof.
  cbv zeta.
  destruct (stop_service_shape hr ur et fe st) as [tail [Hops [Ht Hex]]].
  rewrite Hops. split; [|split; [|split; [|split; [|split]]]].
  - intros id. rewrite !count_hangup_app, hangups_count by apply NoDup_fst_map_to_list.
    rewrite (count_hangup_joins id tail Ht).
    assert (Hu : count_hangup id (OSetRegistration false ::
               (if ur then [OLogUnregisterError] else [])) = 0) by (destruct ur; done).
    rewrite Hu. simpl.
    destruct (registered id st) eqn:Hr.
    + rewrite bool_decide_eq_true_2 by (apply registered_keys; exact Hr). reflexivity.
    + rewrite bool_decide_eq_false_2; [reflexivity|].
      rewrite <- registered_keys. congruence.
  - intros id. rewrite !in_app_iff, hangup_logs, <- registered_keys.
    split; [|tauto]. intros [Hx | [Hx | [Hx | Hx]]]; [exact Hx | | |].
    + exfalso. destruct ur; simpl in Hx; intuition congruence.
    + exfalso. simpl in Hx. intuition congruence.
    + exfalso. apply Ht in Hx. discriminate.
  - rewrite !in_app_iff. right; left. left. reflexivity.
  - rewrite !in_app_iff. right; right; left. right; left. reflexivity.
  - rewrite !in_app_iff. split.
    + intros [Hx | [Hx | [Hx | Hx]]].
      * apply hangup_kinds in Hx as [i [Hx | Hx]]; discriminate.
      * destruct ur; [reflexivity|]. simpl in Hx. intuition congruence.
      * exfalso. simpl in Hx. intuition congruence.
      * apply Ht in Hx. discriminate.
    + intros ->. right; left. right; left. reflexivity.
  - exact Hex.
Qed.

(** X14. When [libRegisterThread] or [libHandleEvents] raises, the event
    thread itself runs [stop_service]: every registered call is hung up
    and the library destroyed, and then [join] on the current thread
    raises [RuntimeError], which ends the thread. *)
Theorem event_loop_failure_stops hr ur (st : vstate) outs :
  first_failure outs <> None ->
  exists ops, _event_loop hr ur st outs = Some (ops, Some RuntimeError) /\
    (forall id, registered id st = true -> In (OHangup id) ops) /\
    In OLibDestroy ops /\ ~ In (OJoin 1) ops.
Proof.
  intros Hf. unfold _event_loop.
  destruct (first_failure outs) as [o|]; [|congruence].
  eexists. split; [reflexivity|]. unfold stop_service; simpl.
  split; [|split].
  - intros id Hr. apply in_app_iff. left. apply hangup_in, registered_keys. exact Hr.
  - rewrite !in_app_iff. right. destruct ur; simpl; auto 6.
  - rewrite !in_app_iff. intros [Hx | Hx].
    + apply hangup_kinds in Hx as [i [Hx | Hx]]; discriminate.
    + destruct ur; simpl in Hx; intuition congruence.
Qed.

Lemma event_loop_failure_stops_witness :
  first_failure [LOk; LOk; LException] <> None /\
  exists ops, _event_loop (fun _ => false) false state_with_call0 [LOk; LOk; LException]
      = Some (ops, Some RuntimeError) /\
    (forall id, registered id state_with_call0 = true -> In (OHangup id) ops) /\
    In OLibDestroy ops /\ ~ In (OJoin 1) ops.
Proof.
  split; [vm_compute; discriminate|].
  apply (event_loop_failure_stops (fun _ => false) false state_with_call0
    [LOk; LOk; LException]).
  vm_compute. discriminate.
Defined.
